(** * QConfigMapping: the pattern-to-QConfig registry of
      torch/ao/quantization/qconfig_mapping.py

    A shallow embedding of the registry class, its five setters and the two
    conversions [to_dict] / [from_dict], together with the properties of the
    registry that the design document states.

    Python objects are mutable and are handled through references, so the
    registry lives in an object store and every method is a computation over
    that store which may return a value or raise an exception. *)

From Stdlib Require Import ZArith.
From stdpp Require Import base option list strings gmap fin_maps.

Local Open Scope string_scope.
Local Open Scope list_scope.

(** ** Python values *)

(** The values that travel through the registry.  The registry never looks
    inside a QConfig, a module type or a function: those are [PObj], an
    object known by its identity only (and not iterable).  Tuples (also named
    tuples), lists, strings, integers and [None] are the shapes that occur in
    the dictionary form. *)
#[warnings="-register-all"]
Inductive pyval : Type :=
| PNone
| PInt (z : Z)
| PStr (s : string)
| PObj (id : positive)
| PTuple (items : list pyval)
| PList (items : list pyval).

(** The exceptions that destructuring and iteration raise. *)
Inductive exn : Type :=
| TypeError_not_iterable
    (* for ... in v: 'T' object is not iterable *)
| TypeError_cannot_unpack
    (* a, b = v: cannot unpack non-iterable T object *)
| ValueError_not_enough (expected got : nat)
    (* not enough values to unpack (expected n, got m) *)
| ValueError_too_many (expected : nat).
    (* too many values to unpack (expected n) *)

(** The characters of a string, each as a string of length one: what
    iterating over a [str] yields. *)
Fixpoint chars (s : string) : list pyval :=
  match s with
  | EmptyString => []
  | String c s' => PStr (String c EmptyString) :: chars s'
  end.

(** The items an iterable yields, [None] for a value that is not iterable. *)
Definition iter_items (v : pyval) : option (list pyval) :=
  match v with
  | PTuple l | PList l => Some l
  | PStr s => Some (chars s)
  | PNone | PInt _ | PObj _ => None
  end.

(** ** The dataclasses of the four entry kinds *)

Module ObjectTypeEntry.
Record QConfigObjectTypeEntry : Type := mk {
  object_type : pyval;
  qconfig : pyval
}.
End ObjectTypeEntry.

Module ModuleNameRegexEntry.
Record QConfigModuleNameRegexEntry : Type := mk {
  module_name_regex : pyval;
  qconfig : pyval
}.
End ModuleNameRegexEntry.

Module ModuleNameEntry.
Record QConfigModuleNameEntry : Type := mk {
  module_name : pyval;
  qconfig : pyval
}.
End ModuleNameEntry.

Module ModuleNameObjectTypeOrderEntry.
Record QConfigModuleNameObjectTypeOrderEntry : Type := mk {
  module_name : pyval;
  object_type : pyval;
  index : pyval;
  qconfig : pyval
}.
End ModuleNameObjectTypeOrderEntry.

Abbreviation QConfigObjectTypeEntry := ObjectTypeEntry.QConfigObjectTypeEntry.
Abbreviation QConfigModuleNameRegexEntry :=
  ModuleNameRegexEntry.QConfigModuleNameRegexEntry.
Abbreviation QConfigModuleNameEntry := ModuleNameEntry.QConfigModuleNameEntry.
Abbreviation QConfigModuleNameObjectTypeOrderEntry :=
  ModuleNameObjectTypeOrderEntry.QConfigModuleNameObjectTypeOrderEntry.

(** [dataclasses.fields]: the declared attributes of a dataclass, in
    declaration order, each with its name and its accessor ([getattr] of
    that name). *)
Record field (T : Type) : Type := Field {
  name : string;
  getattr : T -> pyval
}.
Arguments Field {T} _ _.
Arguments name {T} _.
Arguments getattr {T} _ _.

Class Dataclass (T : Type) : Type := fields : list (field T).
Arguments fields _ {_}.

#[global] Instance QConfigObjectTypeEntry_dataclass :
  Dataclass QConfigObjectTypeEntry :=
  [ Field "object_type" ObjectTypeEntry.object_type;
    Field "qconfig" ObjectTypeEntry.qconfig ].

#[global] Instance QConfigModuleNameRegexEntry_dataclass :
  Dataclass QConfigModuleNameRegexEntry :=
  [ Field "module_name_regex" ModuleNameRegexEntry.module_name_regex;
    Field "qconfig" ModuleNameRegexEntry.qconfig ].

#[global] Instance QConfigModuleNameEntry_dataclass :
  Dataclass QConfigModuleNameEntry :=
  [ Field "module_name" ModuleNameEntry.module_name;
    Field "qconfig" ModuleNameEntry.qconfig ].

#[global] Instance QConfigModuleNameObjectTypeOrderEntry_dataclass :
  Dataclass QConfigModuleNameObjectTypeOrderEntry :=
  [ Field "module_name" ModuleNameObjectTypeOrderEntry.module_name;
    Field "object_type" ModuleNameObjectTypeOrderEntry.object_type;
    Field "index" ModuleNameObjectTypeOrderEntry.index;
    Field "qconfig" ModuleNameObjectTypeOrderEntry.qconfig ].

(** ** The registry object *)

(** The attributes that [__init__] creates.  The three ordered dictionaries
    are created empty and no method of the class touches them again. *)
Record QConfigMapping : Type := mkQConfigMapping {
  global_qconfig : pyval;
  object_type_qconfigs : list QConfigObjectTypeEntry;
  module_name_regex_qconfigs : list QConfigModuleNameRegexEntry;
  module_name_qconfigs : list QConfigModuleNameEntry;
  module_name_object_type_order_qconfigs :
    list QConfigModuleNameObjectTypeOrderEntry;
  _object_type_qconfig_dict : list (pyval * pyval);
  _module_name_regex_qconfig_dict : list (pyval * pyval);
  _module_name_qconfig_dict : list (pyval * pyval)
}.

(** ** The object store and the computations over it *)

Definition loc : Type := positive.

Abbreviation heap := (gmap loc QConfigMapping).

(** How a call ends: with a value, with a Python exception, or [Stuck] when
    it is handed a reference to no object (which no Python program can
    do). *)
Inductive outcome (A : Type) : Type :=
| Return (a : A)
| Raise (e : exn)
| Stuck.
Arguments Return {A} _.
Arguments Raise {A} _.
Arguments Stuck {A}.

Definition py (A : Type) : Type := heap -> heap * outcome A.

Definition ret {A} (a : A) : py A := fun h => (h, Return a).

Definition bind {A B} (m : py A) (k : A -> py B) : py B :=
  fun h =>
    match m h with
    | (h', Return a) => k a h'
    | (h', Raise e) => (h', Raise e)
    | (h', Stuck) => (h', Stuck)
    end.

Definition raise {A} (e : exn) : py A := fun h => (h, Raise e).

Declare Scope py_scope.
Delimit Scope py_scope with py.
Notation "x <- m ;; k" := (bind m (fun x => k))
  (at level 100, m at next level, right associativity) : py_scope.
Notation "m ;; k" := (bind m (fun _ => k))
  (at level 100, right associativity) : py_scope.
Local Open Scope py_scope.

(** Reading the attributes of the object behind a reference. *)
Definition deref (l : loc) : py QConfigMapping :=
  fun h =>
    match h !! l with
    | Some r => (h, Return r)
    | None => (h, Stuck)
    end.

(** Updating the object behind a reference in place. *)
Definition update (l : loc) (f : QConfigMapping -> QConfigMapping) : py unit :=
  fun h =>
    match h !! l with
    | Some r => (<[l := f r]> h, Return tt)
    | None => (h, Stuck)
    end.

(** Creating a new object: it gets a reference that no live object has. *)
Definition new (r : QConfigMapping) : py loc :=
  fun h => let l := fresh (dom h) in (<[l := r]> h, Return l).

(** [for x in l: body(x)] over the items of an iterable already obtained. *)
Fixpoint for_each {A} (l : list A) (body : A -> py unit) : py unit :=
  match l with
  | [] => ret tt
  | x :: l' => body x ;; for_each l' body
  end.

(** [for x in v: body(x)]: [v] must be iterable. *)
Definition for_in (v : pyval) (body : pyval -> py unit) : py unit :=
  match iter_items v with
  | Some l => for_each l body
  | None => raise TypeError_not_iterable
  end.

(** The loop targets [a, b] and [a, b, c, d]: the item is unpacked, which
    needs an iterable with exactly that many items. *)
Definition unpack_error {A} (expected : nat) (l : list pyval) : py A :=
  if (List.length l <? expected)%nat
  then raise (ValueError_not_enough expected (List.length l))
  else raise (ValueError_too_many expected).

Definition unpack2 (v : pyval) : py (pyval * pyval) :=
  match iter_items v with
  | None => raise TypeError_cannot_unpack
  | Some [a; b] => ret (a, b)
  | Some l => unpack_error 2 l
  end.

Definition unpack4 (v : pyval) : py (pyval * pyval * pyval * pyval) :=
  match iter_items v with
  | None => raise TypeError_cannot_unpack
  | Some [a; b; c; d] => ret (a, b, c, d)
  | Some l => unpack_error 4 l
  end.

(** ** The class [QConfigMapping] *)

Definition GLOBAL_DICT_KEY : string := "".
Definition OBJECT_TYPE_DICT_KEY : string := "object_type".
Definition MODULE_NAME_REGEX_DICT_KEY : string := "module_name_regex".
Definition MODULE_NAME_DICT_KEY : string := "module_name".
Definition MODULE_NAME_OBJECT_TYPE_ORDER_DICT_KEY : string :=
  "module_name_object_type_order".

(** The state [__init__] leaves a new object in. *)
Definition __init__ : QConfigMapping :=
  {| global_qconfig := PNone;
     object_type_qconfigs := [];
     module_name_regex_qconfigs := [];
     module_name_qconfigs := [];
     module_name_object_type_order_qconfigs := [];
     _object_type_qconfig_dict := [];
     _module_name_regex_qconfig_dict := [];
     _module_name_qconfig_dict := [] |}.

(** [cls()] *)
Definition cls : py loc := new __init__.

(** The five attribute changes the setters make: one assignment and four
    [list.append]. *)
Definition assign_global_qconfig (v : pyval) (r : QConfigMapping)
  : QConfigMapping :=
  {| global_qconfig := v;
     object_type_qconfigs := object_type_qconfigs r;
     module_name_regex_qconfigs := module_name_regex_qconfigs r;
     module_name_qconfigs := module_name_qconfigs r;
     module_name_object_type_order_qconfigs :=
       module_name_object_type_order_qconfigs r;
     _object_type_qconfig_dict := _object_type_qconfig_dict r;
     _module_name_regex_qconfig_dict := _module_name_regex_qconfig_dict r;
     _module_name_qconfig_dict := _module_name_qconfig_dict r |}.

Definition append_object_type_qconfigs (e : QConfigObjectTypeEntry)
  (r : QConfigMapping) : QConfigMapping :=
  {| global_qconfig := global_qconfig r;
     object_type_qconfigs := object_type_qconfigs r ++ [e];
     module_name_regex_qconfigs := module_name_regex_qconfigs r;
     module_name_qconfigs := module_name_qconfigs r;
     module_name_object_type_order_qconfigs :=
       module_name_object_type_order_qconfigs r;
     _object_type_qconfig_dict := _object_type_qconfig_dict r;
     _module_name_regex_qconfig_dict := _module_name_regex_qconfig_dict r;
     _module_name_qconfig_dict := _module_name_qconfig_dict r |}.

Definition append_module_name_regex_qconfigs (e : QConfigModuleNameRegexEntry)
  (r : QConfigMapping) : QConfigMapping :=
  {| global_qconfig := global_qconfig r;
     object_type_qconfigs := object_type_qconfigs r;
     module_name_regex_qconfigs := module_name_regex_qconfigs r ++ [e];
     module_name_qconfigs := module_name_qconfigs r;
     module_name_object_type_order_qconfigs :=
       module_name_object_type_order_qconfigs r;
     _object_type_qconfig_dict := _object_type_qconfig_dict r;
     _module_name_regex_qconfig_dict := _module_name_regex_qconfig_dict r;
     _module_name_qconfig_dict := _module_name_qconfig_dict r |}.

Definition append_module_name_qconfigs (e : QConfigModuleNameEntry)
  (r : QConfigMapping) : QConfigMapping :=
  {| global_qconfig := global_qconfig r;
     object_type_qconfigs := object_type_qconfigs r;
     module_name_regex_qconfigs := module_name_regex_qconfigs r;
     module_name_qconfigs := module_name_qconfigs r ++ [e];
     module_name_object_type_order_qconfigs :=
       module_name_object_type_order_qconfigs r;
     _object_type_qconfig_dict := _object_type_qconfig_dict r;
     _module_name_regex_qconfig_dict := _module_name_regex_qconfig_dict r;
     _module_name_qconfig_dict := _module_name_qconfig_dict r |}.

Definition append_module_name_object_type_order_qconfigs
  (e : QConfigModuleNameObjectTypeOrderEntry) (r : QConfigMapping)
  : QConfigMapping :=
  {| global_qconfig := global_qconfig r;
     object_type_qconfigs := object_type_qconfigs r;
     module_name_regex_qconfigs := module_name_regex_qconfigs r;
     module_name_qconfigs := module_name_qconfigs r;
     module_name_object_type_order_qconfigs :=
       module_name_object_type_order_qconfigs r ++ [e];
     _object_type_qconfig_dict := _object_type_qconfig_dict r;
     _module_name_regex_qconfig_dict := _module_name_regex_qconfig_dict r;
     _module_name_qconfig_dict := _module_name_qconfig_dict r |}.

(** The setters.  Each one changes [self] in place and returns [self]. *)

Definition set_global (self : loc) (global_qconfig : pyval) : py loc :=
  update self (assign_global_qconfig global_qconfig) ;;
  ret self.

Definition set_object_type (self : loc) (object_type qconfig : pyval)
  : py loc :=
  update self
    (append_object_type_qconfigs (ObjectTypeEntry.mk object_type qconfig)) ;;
  ret self.

Definition set_module_name_regex (self : loc)
  (module_name_regex qconfig : pyval) : py loc :=
  update self
    (append_module_name_regex_qconfigs
       (ModuleNameRegexEntry.mk module_name_regex qconfig)) ;;
  ret self.

Definition set_module_name (self : loc) (module_name qconfig : pyval)
  : py loc :=
  update self
    (append_module_name_qconfigs (ModuleNameEntry.mk module_name qconfig)) ;;
  ret self.

Definition set_module_name_object_type_order (self : loc)
  (module_name object_type index qconfig : pyval) : py loc :=
  update self
    (append_module_name_object_type_order_qconfigs
       (ModuleNameObjectTypeOrderEntry.mk module_name object_type index
          qconfig)) ;;
  ret self.

(** [to_dict] *)

(** One dataclass as a tuple of its attributes in declaration order; the
    attribute values themselves are passed on, not copied. *)
Definition to_tuple {T} `{Dataclass T} (e : T) : pyval :=
  PTuple ((fun f => getattr f e) <$> fields T).

Definition to_tuple_list {T} `{Dataclass T} (dataclass_list : list T)
  : pyval :=
  PList (to_tuple <$> dataclass_list).

(** The dictionary display [{"": .., "object_type": .., ..}] of [to_dict]. *)
Definition dict_display (g ot mnr mn mnoto : pyval) : gmap string pyval :=
  <[MODULE_NAME_OBJECT_TYPE_ORDER_DICT_KEY := mnoto]>
    (<[MODULE_NAME_DICT_KEY := mn]>
       (<[MODULE_NAME_REGEX_DICT_KEY := mnr]>
          (<[OBJECT_TYPE_DICT_KEY := ot]>
             (<[GLOBAL_DICT_KEY := g]> ∅)))).

Definition to_dict (self : loc) : py (gmap string pyval) :=
  r <- deref self ;;
  ret (dict_display
         (global_qconfig r)
         (to_tuple_list (object_type_qconfigs r))
         (to_tuple_list (module_name_regex_qconfigs r))
         (to_tuple_list (module_name_qconfigs r))
         (to_tuple_list (module_name_object_type_order_qconfigs r))).

(** [from_dict] *)

(** [d.get(k, default)] *)
Definition dict_get (d : gmap string pyval) (k : string) (dflt : pyval)
  : pyval :=
  default dflt (d !! k).

Definition from_dict (qconfig_dict : gmap string pyval) : py loc :=
  conf <- cls ;;
  match qconfig_dict !! GLOBAL_DICT_KEY with
  | Some g => set_global conf g ;; ret tt
  | None => ret tt
  end ;;
  for_in (dict_get qconfig_dict OBJECT_TYPE_DICT_KEY (PList []))
    (fun item =>
       p <- unpack2 item ;;
       let '(object_type, qconfig) := p in
       set_object_type conf object_type qconfig ;; ret tt) ;;
  for_in (dict_get qconfig_dict MODULE_NAME_REGEX_DICT_KEY (PList []))
    (fun item =>
       p <- unpack2 item ;;
       let '(module_name_regex, qconfig) := p in
       set_module_name_regex conf module_name_regex qconfig ;; ret tt) ;;
  for_in (dict_get qconfig_dict MODULE_NAME_DICT_KEY (PList []))
    (fun item =>
       p <- unpack2 item ;;
       let '(module_name, qconfig) := p in
       set_module_name conf module_name qconfig ;; ret tt) ;;
  for_in (dict_get qconfig_dict MODULE_NAME_OBJECT_TYPE_ORDER_DICT_KEY
            (PList []))
    (fun item =>
       p <- unpack4 item ;;
       let '(module_name, object_type, index, qconfig) := p in
       set_module_name_object_type_order conf module_name object_type index
         qconfig ;;
       ret tt) ;;
  ret conf.

(** ** Shapes of dictionary values *)

(** The exceptions raised by unpacking an item into the loop targets. *)
Definition is_unpack_error (e : exn) : bool :=
  match e with
  | TypeError_not_iterable => false
  | TypeError_cannot_unpack
  | ValueError_not_enough _ _
  | ValueError_too_many _ => true
  end.

(** The four keys whose values [from_dict] iterates over, each with the
    number of loop targets of its [for] statement. *)
Definition list_keys : list (string * nat) :=
  [ (OBJECT_TYPE_DICT_KEY, 2);
    (MODULE_NAME_REGEX_DICT_KEY, 2);
    (MODULE_NAME_DICT_KEY, 2);
    (MODULE_NAME_OBJECT_TYPE_ORDER_DICT_KEY, 4) ]%nat.

(** All five recognised keys. *)
Definition recognised_keys : list string :=
  GLOBAL_DICT_KEY :: list_keys.*1.

(** Every list key that is present holds something that can be iterated
    over. *)
Definition iterable_valued (d : gmap string pyval) : Prop :=
  forall k v, k ∈ list_keys.*1 -> d !! k = Some v -> is_Some (iter_items v).

(** ** Ways a step of [from_dict] can end

    [conf] is the registry under construction; [Q] describes the exceptions
    that may come out. *)

(** The step ends normally having changed nothing but [conf], or raises. *)
Definition completes_or_raises (Q : exn -> Prop) (conf : loc) (m : py unit)
  : Prop :=
  forall (h : heap) r,
    h !! conf = Some r ->
    (exists r', m h = (<[conf := r']> h, Return tt))
    \/ (exists h' e, m h = (h', Raise e) /\ Q e).

(** The step raises, whatever state [conf] is in. *)
Definition always_raises {A} (Q : exn -> Prop) (conf : loc) (m : py A)
  : Prop :=
  forall (h : heap) r,
    h !! conf = Some r -> exists h' e, m h = (h', Raise e) /\ Q e.

(** ** What a setter leaves alone *)

(** The three private dictionaries. *)
Definition private_dicts (r : QConfigMapping)
  : list (pyval * pyval) * list (pyval * pyval) * list (pyval * pyval) :=
  (_object_type_qconfig_dict r, _module_name_regex_qconfig_dict r,
   _module_name_qconfig_dict r).

(** Registries obtained from a new one without ever calling [set_global]. *)
Inductive global_never_set : QConfigMapping -> Prop :=
| never_set_init : global_never_set __init__
| never_set_object_type e r :
    global_never_set r -> global_never_set (append_object_type_qconfigs e r)
| never_set_module_name_regex e r :
    global_never_set r ->
    global_never_set (append_module_name_regex_qconfigs e r)
| never_set_module_name e r :
    global_never_set r -> global_never_set (append_module_name_qconfigs e r)
| never_set_module_name_object_type_order e r :
    global_never_set r ->
    global_never_set (append_module_name_object_type_order_qconfigs e r).

(** ** Fluent construction *)

(** [r.set_x(e1...).set_x(e2...) ...]: every call is made on the reference
    the previous call returned. *)
Definition chain {A} (setter : loc -> A -> py loc) (self : loc)
  (args : list A) : py loc :=
  foldl (fun m a => s <- m ;; setter s a) (ret self) args.

Definition set_object_type_entry (self : loc) (e : QConfigObjectTypeEntry)
  : py loc :=
  set_object_type self (ObjectTypeEntry.object_type e)
    (ObjectTypeEntry.qconfig e).

Definition set_module_name_regex_entry (self : loc)
  (e : QConfigModuleNameRegexEntry) : py loc :=
  set_module_name_regex self (ModuleNameRegexEntry.module_name_regex e)
    (ModuleNameRegexEntry.qconfig e).

Definition set_module_name_entry (self : loc) (e : QConfigModuleNameEntry)
  : py loc :=
  set_module_name self (ModuleNameEntry.module_name e)
    (ModuleNameEntry.qconfig e).

Definition set_module_name_object_type_order_entry (self : loc)
  (e : QConfigModuleNameObjectTypeOrderEntry) : py loc :=
  set_module_name_object_type_order self
    (ModuleNameObjectTypeOrderEntry.module_name e)
    (ModuleNameObjectTypeOrderEntry.object_type e)
    (ModuleNameObjectTypeOrderEntry.index e)
    (ModuleNameObjectTypeOrderEntry.qconfig e).

(** ** Sample data

    The registry of the class docstring, with [PObj 1..3] for
    [qconfig1..3], [PObj 10] for the global QConfig and [PObj 20..22] for
    [torch.nn.Linear], [torch.nn.ReLU] and [torch.nn.functional.linear]. *)
Definition sample_registry : QConfigMapping :=
  {| global_qconfig := PObj 10;
     object_type_qconfigs :=
       [ ObjectTypeEntry.mk (PObj 20) (PObj 1);
         ObjectTypeEntry.mk (PObj 21) (PObj 1) ];
     module_name_regex_qconfigs :=
       [ ModuleNameRegexEntry.mk (PStr "foo.*bar.*conv[0-9]+") (PObj 1);
         ModuleNameRegexEntry.mk (PStr "foo.*") (PObj 2) ];
     module_name_qconfigs :=
       [ ModuleNameEntry.mk (PStr "module1") (PObj 1);
         ModuleNameEntry.mk (PStr "module2") (PObj 2) ];
     module_name_object_type_order_qconfigs :=
       [ ModuleNameObjectTypeOrderEntry.mk (PStr "foo.bar") (PObj 22)
           (PInt 0) (PObj 3) ];
     _object_type_qconfig_dict := [];
     _module_name_regex_qconfig_dict := [];
     _module_name_qconfig_dict := [] |}.

(** A store with that registry at reference 1 and a new one at 2. *)
Definition sample_heap : heap :=
  <[2%positive := __init__]> {[ 1%positive := sample_registry ]}.

(** Two dictionaries with the same recognised entries and different
    unknown keys. *)
Definition sample_dict_1 : gmap string pyval :=
  <["backend" := PStr "fbgemm"]>
    (<[MODULE_NAME_DICT_KEY := PList [PTuple [PStr "module1"; PObj 1]]]>
       (<[GLOBAL_DICT_KEY := PObj 10]> ∅)).

Definition sample_dict_2 : gmap string pyval :=
  <["version" := PInt 2]>
    (<["object_types" := PList [PTuple [PObj 20]]]>
       (<[MODULE_NAME_DICT_KEY := PList [PTuple [PStr "module1"; PObj 1]]]>
          (<[GLOBAL_DICT_KEY := PObj 10]> ∅))).

(** A dictionary whose ["module_name"] list has a tuple of three items. *)
Definition sample_dict_bad : gmap string pyval :=
  <[MODULE_NAME_DICT_KEY :=
      PList [PTuple [PStr "module1"; PObj 1];
             PTuple [PStr "module2"; PObj 20; PObj 2]]]>
    (<[OBJECT_TYPE_DICT_KEY := PList [PTuple [PObj 20; PObj 1]]]> ∅).

(** [to_dict] called [n] times in a row, the results dropped. *)
Definition to_dict_times (n : nat) (self : loc) : py unit :=
  for_each (replicate n tt) (fun _ => to_dict self ;; ret tt).

(** ** Sequences of setter calls *)

(** One call of a setter, with its arguments. *)
Inductive setter_call : Type :=
| Call_set_global (q : pyval)
| Call_set_object_type (k q : pyval)
| Call_set_module_name_regex (k q : pyval)
| Call_set_module_name (k q : pyval)
| Call_set_module_name_object_type_order (k t i q : pyval).

Definition call (self : loc) (c : setter_call) : py loc :=
  match c with
  | Call_set_global q => set_global self q
  | Call_set_object_type k q => set_object_type self k q
  | Call_set_module_name_regex k q => set_module_name_regex self k q
  | Call_set_module_name k q => set_module_name self k q
  | Call_set_module_name_object_type_order k t i q =>
      set_module_name_object_type_order self k t i q
  end.

(** The attribute change a call makes. *)
Definition call_change (c : setter_call) (r : QConfigMapping)
  : QConfigMapping :=
  match c with
  | Call_set_global q => assign_global_qconfig q r
  | Call_set_object_type k q =>
      append_object_type_qconfigs (ObjectTypeEntry.mk k q) r
  | Call_set_module_name_regex k q =>
      append_module_name_regex_qconfigs (ModuleNameRegexEntry.mk k q) r
  | Call_set_module_name k q =>
      append_module_name_qconfigs (ModuleNameEntry.mk k q) r
  | Call_set_module_name_object_type_order k t i q =>
      append_module_name_object_type_order_qconfigs
        (ModuleNameObjectTypeOrderEntry.mk k t i q) r
  end.

(** The calls of a sequence that concern one category, in call order. *)
Definition global_calls (cs : list setter_call) : list pyval :=
  omap (fun c => match c with Call_set_global q => Some q | _ => None end) cs.

Definition object_type_calls (cs : list setter_call)
  : list QConfigObjectTypeEntry :=
  omap (fun c => match c with
                 | Call_set_object_type k q => Some (ObjectTypeEntry.mk k q)
                 | _ => None
                 end) cs.

Definition module_name_regex_calls (cs : list setter_call)
  : list QConfigModuleNameRegexEntry :=
  omap (fun c => match c with
                 | Call_set_module_name_regex k q =>
                     Some (ModuleNameRegexEntry.mk k q)
                 | _ => None
                 end) cs.

Definition module_name_calls (cs : list setter_call)
  : list QConfigModuleNameEntry :=
  omap (fun c => match c with
                 | Call_set_module_name k q => Some (ModuleNameEntry.mk k q)
                 | _ => None
                 end) cs.

Definition module_name_object_type_order_calls (cs : list setter_call)
  : list QConfigModuleNameObjectTypeOrderEntry :=
  omap (fun c => match c with
                 | Call_set_module_name_object_type_order k t i q =>
                     Some (ModuleNameObjectTypeOrderEntry.mk k t i q)
                 | _ => None
                 end) cs.

(** The docstring's chain of calls, and the same calls grouped another
    way. *)
Definition sample_calls : list setter_call :=
  [ Call_set_global (PObj 10);
    Call_set_object_type (PObj 20) (PObj 1);
    Call_set_object_type (PObj 21) (PObj 1);
    Call_set_module_name_regex (PStr "foo.*bar.*conv[0-9]+") (PObj 1);
    Call_set_module_name_regex (PStr "foo.*") (PObj 2);
    Call_set_module_name (PStr "module1") (PObj 1);
    Call_set_module_name (PStr "module2") (PObj 2);
    Call_set_module_name_object_type_order (PStr "foo.bar") (PObj 22)
      (PInt 0) (PObj 3) ].

Definition sample_calls_regrouped : list setter_call :=
  [ Call_set_module_name (PStr "module1") (PObj 1);
    Call_set_object_type (PObj 20) (PObj 1);
    Call_set_module_name_regex (PStr "foo.*bar.*conv[0-9]+") (PObj 1);
    Call_set_global (PObj 11);
    Call_set_module_name_object_type_order (PStr "foo.bar") (PObj 22)
      (PInt 0) (PObj 3);
    Call_set_module_name (PStr "module2") (PObj 2);
    Call_set_object_type (PObj 21) (PObj 1);
    Call_set_global (PObj 10);
    Call_set_module_name_regex (PStr "foo.*") (PObj 2) ].

(** ** Dictionaries that [from_dict] accepts *)

(** The item unpacks into [n] loop targets. *)
Definition unpacks (n : nat) (v : pyval) : bool :=
  match iter_items v with
  | Some l => (List.length l =? n)%nat
  | None => false
  end.

(** The items the loop over key [K] goes through (none when the value
    cannot be iterated over). *)
Definition items_of (d : gmap string pyval) (K : string) : list pyval :=
  default [] (iter_items (dict_get d K (PList []))).

(** The value at a list key, when there is one, can be iterated over and
    all its items unpack. *)
Definition well_formed_at (d : gmap string pyval) (Kn : string * nat)
  : bool :=
  match iter_items (dict_get d Kn.1 (PList [])) with
  | Some items => forallb (unpacks Kn.2) items
  | None => false
  end.

Definition well_formed (d : gmap string pyval) : bool :=
  forallb (well_formed_at d) list_keys.

(** A dictionary with a missing key, a tuple in place of a list and items
    that are lists or two-character strings. *)
Definition sample_dict_loose : gmap string pyval :=
  <[MODULE_NAME_OBJECT_TYPE_ORDER_DICT_KEY :=
      PList [PList [PStr "foo.bar"; PObj 22; PInt 0; PObj 3]]]>
    (<[MODULE_NAME_DICT_KEY := PTuple [PList [PStr "module1"; PObj 1]]]>
       (<[OBJECT_TYPE_DICT_KEY :=
            PList [PTuple [PObj 20; PObj 1]; PStr "ab"]]> ∅)).

(** ** The exception [from_dict] raises *)

(** The exception unpacking the item into [n] loop targets raises, if
    any. *)
Definition item_error (n : nat) (v : pyval) : option exn :=
  match iter_items v with
  | None => Some TypeError_cannot_unpack
  | Some l =>
      if (List.length l =? n)%nat then None
      else if (List.length l <? n)%nat
           then Some (ValueError_not_enough n (List.length l))
           else Some (ValueError_too_many n)
  end.

(** The exception the loop over one list key raises, if any: that of not
    being able to iterate, or else that of the first item that does not
    unpack. *)
Definition value_error (d : gmap string pyval) (Kn : string * nat)
  : option exn :=
  match iter_items (dict_get d Kn.1 (PList [])) with
  | None => Some TypeError_not_iterable
  | Some items => head (omap (item_error Kn.2) items)
  end.

(** The first exception met when the list keys are gone through in the
    order of the four loops. *)
Definition first_error (d : gmap string pyval) : option exn :=
  head (omap (value_error d) list_keys).

(** A step that changes no object but [conf] and does not get stuck; what
    it returns, if it returns, satisfies [post]. *)
Definition confined {A} (conf : loc) (post : A -> Prop) (m : py A) : Prop :=
  forall (h : heap) r,
    h !! conf = Some r ->
    exists r' o,
      m h = (<[conf := r']> h, o) /\
      match o with
      | Return a => post a
      | Raise _ => True
      | Stuck => False
      end.

(** ** Basic facts about the store operations *)

Lemma bind_Return {A B} (m : py A) (k : A -> py B) h h' a :
  m h = (h', Return a) -> bind m k h = k a h'.
Proof. intros E. unfold bind. by rewrite E. Qed.

Lemma bind_Raise {A B} (m : py A) (k : A -> py B) h h' e :
  m h = (h', Raise e) -> bind m k h = (h', Raise e).
Proof. intros E. unfold bind. by rewrite E. Qed.

Lemma update_live self f (h : heap) r :
  h !! self = Some r -> update self f h = (<[self := f r]> h, Return tt).
Proof. intros E. unfold update. by rewrite E. Qed.

Lemma deref_live self (h : heap) r :
  h !! self = Some r -> deref self h = (h, Return r).
Proof. intros E. unfold deref. by rewrite E. Qed.

Lemma setter_live self f (h : heap) r :
  h !! self = Some r ->
  (update self f ;; ret self) h = (<[self := f r]> h, Return self).
Proof.
  intros E. by rewrite (bind_Return _ _ _ _ _ (update_live self f h r E)).
Qed.

Lemma insert_live_twice self (r1 r2 : QConfigMapping) (h : heap) :
  <[self := r2]> (<[self := r1]> h) = <[self := r2]> h.
Proof. apply insert_insert_eq. Qed.

Lemma QConfigMapping_eq (r r' : QConfigMapping) :
  global_qconfig r = global_qconfig r' ->
  object_type_qconfigs r = object_type_qconfigs r' ->
  module_name_regex_qconfigs r = module_name_regex_qconfigs r' ->
  module_name_qconfigs r = module_name_qconfigs r' ->
  module_name_object_type_order_qconfigs r
  = module_name_object_type_order_qconfigs r' ->
  _object_type_qconfig_dict r = _object_type_qconfig_dict r' ->
  _module_name_regex_qconfig_dict r = _module_name_regex_qconfig_dict r' ->
  _module_name_qconfig_dict r = _module_name_qconfig_dict r' ->
  r = r'.
Proof. destruct r, r'; simpl; intros; by subst. Qed.

(** What each setter does to a live registry. *)
Lemma set_global_live self q (h : heap) r :
  h !! self = Some r ->
  set_global self q h = (<[self := assign_global_qconfig q r]> h, Return self).
Proof. apply setter_live. Qed.

Lemma set_object_type_live self k q (h : heap) r :
  h !! self = Some r ->
  set_object_type self k q h
  = (<[self := append_object_type_qconfigs (ObjectTypeEntry.mk k q) r]> h,
     Return self).
Proof. apply setter_live. Qed.

Lemma set_module_name_regex_live self k q (h : heap) r :
  h !! self = Some r ->
  set_module_name_regex self k q h
  = (<[self := append_module_name_regex_qconfigs
                 (ModuleNameRegexEntry.mk k q) r]> h,
     Return self).
Proof. apply setter_live. Qed.

Lemma set_module_name_live self k q (h : heap) r :
  h !! self = Some r ->
  set_module_name self k q h
  = (<[self := append_module_name_qconfigs (ModuleNameEntry.mk k q) r]> h,
     Return self).
Proof. apply setter_live. Qed.

Lemma set_module_name_object_type_order_live self k t i q (h : heap) r :
  h !! self = Some r ->
  set_module_name_object_type_order self k t i q h
  = (<[self := append_module_name_object_type_order_qconfigs
                 (ModuleNameObjectTypeOrderEntry.mk k t i q) r]> h,
     Return self).
Proof. apply setter_live. Qed.

(** A chain of calls of one setter amounts to one update of the registry by
    the accumulated change. *)
Section chain.
Context {A : Type} (setter : loc -> A -> py loc)
        (change : A -> QConfigMapping -> QConfigMapping).
Hypothesis setter_change : forall self a (h : heap) r,
  h !! self = Some r ->
  setter self a h = (<[self := change a r]> h, Return self).

Lemma chain_live (args : list A) self (h : heap) r :
  h !! self = Some r ->
  chain setter self args h
  = (<[self := foldl (fun r a => change a r) r args]> h, Return self).
Proof.
  intros E. unfold chain.
  induction args as [|a args IH] using rev_ind.
  - simpl. unfold ret. by rewrite insert_id.
  - rewrite !foldl_snoc. erewrite bind_Return by exact IH.
    erewrite setter_change by apply lookup_insert_eq.
    by rewrite insert_live_twice.
Qed.
End chain.

(** Appending a run of entries one at a time extends the category's list by
    that run and leaves the other attributes alone. *)
Lemma foldl_append_object_type_qconfigs es r :
  foldl (fun r e => append_object_type_qconfigs e r) r es
  = {| global_qconfig := global_qconfig r;
       object_type_qconfigs := object_type_qconfigs r ++ es;
       module_name_regex_qconfigs := module_name_regex_qconfigs r;
       module_name_qconfigs := module_name_qconfigs r;
       module_name_object_type_order_qconfigs :=
         module_name_object_type_order_qconfigs r;
       _object_type_qconfig_dict := _object_type_qconfig_dict r;
       _module_name_regex_qconfig_dict := _module_name_regex_qconfig_dict r;
       _module_name_qconfig_dict := _module_name_qconfig_dict r |}.
Proof.
  revert r. induction es as [|e es IH]; intros r; simpl.
  - rewrite app_nil_r. by destruct r.
  - rewrite IH. simpl. by rewrite <- app_assoc.
Qed.

Lemma foldl_append_module_name_regex_qconfigs es r :
  foldl (fun r e => append_module_name_regex_qconfigs e r) r es
  = {| global_qconfig := global_qconfig r;
       object_type_qconfigs := object_type_qconfigs r;
       module_name_regex_qconfigs := module_name_regex_qconfigs r ++ es;
       module_name_qconfigs := module_name_qconfigs r;
       module_name_object_type_order_qconfigs :=
         module_name_object_type_order_qconfigs r;
       _object_type_qconfig_dict := _object_type_qconfig_dict r;
       _module_name_regex_qconfig_dict := _module_name_regex_qconfig_dict r;
       _module_name_qconfig_dict := _module_name_qconfig_dict r |}.
Proof.
  revert r. induction es as [|e es IH]; intros r; simpl.
  - rewrite app_nil_r. by destruct r.
  - rewrite IH. simpl. by rewrite <- app_assoc.
Qed.

Lemma foldl_append_module_name_qconfigs es r :
  foldl (fun r e => append_module_name_qconfigs e r) r es
  = {| global_qconfig := global_qconfig r;
       object_type_qconfigs := object_type_qconfigs r;
       module_name_regex_qconfigs := module_name_regex_qconfigs r;
       module_name_qconfigs := module_name_qconfigs r ++ es;
       module_name_object_type_order_qconfigs :=
         module_name_object_type_order_qconfigs r;
       _object_type_qconfig_dict := _object_type_qconfig_dict r;
       _module_name_regex_qconfig_dict := _module_name_regex_qconfig_dict r;
       _module_name_qconfig_dict := _module_name_qconfig_dict r |}.
Proof.
  revert r. induction es as [|e es IH]; intros r; simpl.
  - rewrite app_nil_r. by destruct r.
  - rewrite IH. simpl. by rewrite <- app_assoc.
Qed.

Lemma foldl_append_module_name_object_type_order_qconfigs es r :
  foldl (fun r e => append_module_name_object_type_order_qconfigs e r) r es
  = {| global_qconfig := global_qconfig r;
       object_type_qconfigs := object_type_qconfigs r;
       module_name_regex_qconfigs := module_name_regex_qconfigs r;
       module_name_qconfigs := module_name_qconfigs r;
       module_name_object_type_order_qconfigs :=
         module_name_object_type_order_qconfigs r ++ es;
       _object_type_qconfig_dict := _object_type_qconfig_dict r;
       _module_name_regex_qconfig_dict := _module_name_regex_qconfig_dict r;
       _module_name_qconfig_dict := _module_name_qconfig_dict r |}.
Proof.
  revert r. induction es as [|e es IH]; intros r; simpl.
  - rewrite app_nil_r. by destruct r.
  - rewrite IH. simpl. by rewrite <- app_assoc.
Qed.

(** The entry a setter stores is the entry it was called with. *)
Lemma set_object_type_entry_live self e (h : heap) r :
  h !! self = Some r ->
  set_object_type_entry self e h
  = (<[self := append_object_type_qconfigs e r]> h, Return self).
Proof.
  intros E. unfold set_object_type_entry.
  rewrite (set_object_type_live _ _ _ _ _ E). by destruct e.
Qed.

Lemma set_module_name_regex_entry_live self e (h : heap) r :
  h !! self = Some r ->
  set_module_name_regex_entry self e h
  = (<[self := append_module_name_regex_qconfigs e r]> h, Return self).
Proof.
  intros E. unfold set_module_name_regex_entry.
  rewrite (set_module_name_regex_live _ _ _ _ _ E). by destruct e.
Qed.

Lemma set_module_name_entry_live self e (h : heap) r :
  h !! self = Some r ->
  set_module_name_entry self e h
  = (<[self := append_module_name_qconfigs e r]> h, Return self).
Proof.
  intros E. unfold set_module_name_entry.
  rewrite (set_module_name_live _ _ _ _ _ E). by destruct e.
Qed.

Lemma set_module_name_object_type_order_entry_live self e (h : heap) r :
  h !! self = Some r ->
  set_module_name_object_type_order_entry self e h
  = (<[self := append_module_name_object_type_order_qconfigs e r]> h,
     Return self).
Proof.
  intros E. unfold set_module_name_object_type_order_entry.
  rewrite (set_module_name_object_type_order_live _ _ _ _ _ _ _ E).
  by destruct e.
Qed.

(** The dictionary [to_dict] builds, as a function of the registry's
    attributes. *)
Lemma to_dict_live self (h : heap) r :
  h !! self = Some r ->
  to_dict self h
  = (h, Return
      (dict_display
         (global_qconfig r)
         (to_tuple_list (object_type_qconfigs r))
         (to_tuple_list (module_name_regex_qconfigs r))
         (to_tuple_list (module_name_qconfigs r))
         (to_tuple_list (module_name_object_type_order_qconfigs r)))).
Proof.
  intros E. unfold to_dict.
  by rewrite (bind_Return _ _ _ _ _ (deref_live self h r E)).
Qed.

Lemma dict_display_lookup g ot mnr mn mnoto :
  dict_display g ot mnr mn mnoto !! GLOBAL_DICT_KEY = Some g /\
  dict_display g ot mnr mn mnoto !! OBJECT_TYPE_DICT_KEY = Some ot /\
  dict_display g ot mnr mn mnoto !! MODULE_NAME_REGEX_DICT_KEY = Some mnr /\
  dict_display g ot mnr mn mnoto !! MODULE_NAME_DICT_KEY = Some mn /\
  dict_display g ot mnr mn mnoto !! MODULE_NAME_OBJECT_TYPE_ORDER_DICT_KEY
  = Some mnoto.
Proof. unfold dict_display. repeat split; by simplify_map_eq. Qed.

(** ** The loops of [from_dict] *)

Lemma unpack_error_raises {A} n l (h : heap) :
  exists e, @unpack_error A n l h = (h, Raise e) /\ is_unpack_error e = true.
Proof. unfold unpack_error. destruct (_ <? _)%nat; eexists; split; done. Qed.

Lemma unpack2_total v (h : heap) :
  (exists a b, iter_items v = Some [a; b] /\ unpack2 v h = (h, Return (a, b)))
  \/ (exists e, unpack2 v h = (h, Raise e) /\ is_unpack_error e = true).
Proof.
  unfold unpack2. destruct (iter_items v) as [l|].
  - destruct l as [|a [|b [|c l]]]; try (right; apply unpack_error_raises).
    left. by exists a, b.
  - right. by eexists.
Qed.

Lemma unpack4_total v (h : heap) :
  (exists a b c d, iter_items v = Some [a; b; c; d] /\
                   unpack4 v h = (h, Return (a, b, c, d)))
  \/ (exists e, unpack4 v h = (h, Raise e) /\ is_unpack_error e = true).
Proof.
  unfold unpack4. destruct (iter_items v) as [l|].
  - destruct l as [|a [|b [|c [|d [|x l]]]]];
      try (right; apply unpack_error_raises).
    left. by exists a, b, c, d.
  - right. by eexists.
Qed.

Section loop.
Context {P : Type} (unpack : pyval -> py P) (k : P -> py unit)
        (change : P -> QConfigMapping -> QConfigMapping) (conf : loc).
Hypothesis unpack_total : forall v (h : heap),
  (exists p, unpack v h = (h, Return p))
  \/ (exists e, unpack v h = (h, Raise e) /\ is_unpack_error e = true).
Hypothesis k_change : forall p (h : heap) r,
  h !! conf = Some r -> k p h = (<[conf := change p r]> h, Return tt).

(** A loop ends normally, the registry still live, or with an unpacking
    error. *)
Lemma loop_total items : forall (h : heap) r,
  h !! conf = Some r ->
  (exists r',
     for_each items (fun item => bind (unpack item) k) h
     = (<[conf := r']> h, Return tt))
  \/ (exists h' e,
        for_each items (fun item => bind (unpack item) k) h = (h', Raise e) /\
        is_unpack_error e = true).
Proof.
  induction items as [|v items IH]; intros h r E; simpl.
  - left. exists r. unfold ret. by rewrite insert_id.
  - destruct (unpack_total v h) as [[p Hp]|[e [He Q]]].
    + erewrite bind_Return; last first.
      { erewrite bind_Return by exact Hp. by apply k_change. }
      destruct (IH (<[conf := change p r]> h) (change p r))
        as [[r' Hr']|[h' [e [He Q]]]]; first apply lookup_insert_eq.
      * left. exists r'. by rewrite Hr', insert_live_twice.
      * right. by exists h', e.
    + right. exists h, e. split; last done.
      erewrite bind_Raise; first done.
      by erewrite bind_Raise.
Qed.

(** Items that all unpack are registered one after the other. *)
Lemma loop_good items ps : forall (h : heap) r,
  Forall2 (fun v p => forall h : heap, unpack v h = (h, Return p)) items ps ->
  h !! conf = Some r ->
  for_each items (fun item => bind (unpack item) k) h
  = (<[conf := foldl (fun r p => change p r) r ps]> h, Return tt).
Proof.
  intros h r F. revert h r.
  induction F as [|v p items ps Hp F IH]; intros h r E; simpl.
  - unfold ret. by rewrite insert_id.
  - erewrite bind_Return; last first.
    { erewrite bind_Return by apply Hp. by apply k_change. }
    rewrite (IH _ (change p r)) by apply lookup_insert_eq.
    by rewrite insert_live_twice.
Qed.

(** One item that does not unpack makes the loop raise. *)
Lemma loop_bad items v : forall (h : heap) r,
  v ∈ items ->
  (forall (h : heap) p, unpack v h <> (h, Return p)) ->
  h !! conf = Some r ->
  exists h' e,
    for_each items (fun item => bind (unpack item) k) h = (h', Raise e) /\
    is_unpack_error e = true.
Proof.
  induction items as [|w items IH]; intros h r Hin Hbad E.
  - by apply elem_of_nil in Hin.
  - simpl. destruct (unpack_total w h) as [[p Hp]|[e [He Q]]].
    + apply elem_of_cons in Hin as [->|Hin]; first by destruct (Hbad h p).
      erewrite bind_Return; last first.
      { erewrite bind_Return by exact Hp. by apply k_change. }
      apply (IH _ (change p r)); [done|done|apply lookup_insert_eq].
    + exists h, e. split; last done.
      erewrite bind_Raise; first done.
      by erewrite bind_Raise.
Qed.
End loop.

(** Sequencing of steps. *)
Lemma always_raises_first {A B} Q conf (m : py A) (k : A -> py B) :
  always_raises Q conf m -> always_raises Q conf (bind m k).
Proof.
  intros Hm h r E. destruct (Hm h r E) as (h' & e & He & HQ).
  exists h', e. split; last done. by apply bind_Raise.
Qed.

Lemma always_raises_then {B} Q conf (m : py unit) (k : py B) :
  completes_or_raises Q conf m -> always_raises Q conf k ->
  always_raises Q conf (m ;; k).
Proof.
  intros Hm Hk h r E. destruct (Hm h r E) as [[r' Hr]|(h' & e & He & HQ)].
  - destruct (Hk (<[conf := r']> h) r') as (h' & e & He & HQ);
      first apply lookup_insert_eq.
    exists h', e. split; last done. by erewrite bind_Return.
  - exists h', e. split; last done. by apply bind_Raise.
Qed.

Lemma completes_or_raises_weaken (Q Q' : exn -> Prop) conf m :
  (forall e, Q e -> Q' e) ->
  completes_or_raises Q conf m -> completes_or_raises Q' conf m.
Proof.
  intros HQ Hm h r E. destruct (Hm h r E) as [?|(h' & e & He & ?)];
    [by left|right]. exists h', e. auto.
Qed.

(** The loop bodies of [from_dict], as the generic loop sees them. *)
Lemma unpack2_returns_or_raises v (h : heap) :
  (exists p, unpack2 v h = (h, Return p))
  \/ (exists e, unpack2 v h = (h, Raise e) /\ is_unpack_error e = true).
Proof.
  destruct (unpack2_total v h) as [(a & b & _ & E)|?]; [left|by right].
  by exists (a, b).
Qed.

Lemma unpack4_returns_or_raises v (h : heap) :
  (exists p, unpack4 v h = (h, Return p))
  \/ (exists e, unpack4 v h = (h, Raise e) /\ is_unpack_error e = true).
Proof.
  destruct (unpack4_total v h) as [(a & b & c & d & _ & E)|?]; [left|by right].
  by exists (a, b, c, d).
Qed.

Lemma object_type_body_change conf (p : pyval * pyval) (h : heap) r :
  h !! conf = Some r ->
  (let '(object_type, qconfig) := p in
   set_object_type conf object_type qconfig ;; ret tt) h
  = (<[conf := append_object_type_qconfigs
                 (ObjectTypeEntry.mk p.1 p.2) r]> h, Return tt).
Proof.
  intros E. destruct p as [a b].
  by erewrite bind_Return by by apply set_object_type_live.
Qed.

Lemma module_name_regex_body_change conf (p : pyval * pyval) (h : heap) r :
  h !! conf = Some r ->
  (let '(module_name_regex, qconfig) := p in
   set_module_name_regex conf module_name_regex qconfig ;; ret tt) h
  = (<[conf := append_module_name_regex_qconfigs
                 (ModuleNameRegexEntry.mk p.1 p.2) r]> h, Return tt).
Proof.
  intros E. destruct p as [a b].
  by erewrite bind_Return by by apply set_module_name_regex_live.
Qed.

Lemma module_name_body_change conf (p : pyval * pyval) (h : heap) r :
  h !! conf = Some r ->
  (let '(module_name, qconfig) := p in
   set_module_name conf module_name qconfig ;; ret tt) h
  = (<[conf := append_module_name_qconfigs
                 (ModuleNameEntry.mk p.1 p.2) r]> h, Return tt).
Proof.
  intros E. destruct p as [a b].
  by erewrite bind_Return by by apply set_module_name_live.
Qed.

Lemma module_name_object_type_order_body_change conf
  (p : pyval * pyval * pyval * pyval) (h : heap) r :
  h !! conf = Some r ->
  (let '(module_name, object_type, index, qconfig) := p in
   set_module_name_object_type_order conf module_name object_type index
     qconfig ;;
   ret tt) h
  = (<[conf := append_module_name_object_type_order_qconfigs
                 (ModuleNameObjectTypeOrderEntry.mk p.1.1.1 p.1.1.2 p.1.2 p.2)
                 r]> h, Return tt).
Proof.
  intros E. destruct p as [[[a b] c] d].
  by erewrite bind_Return
    by by apply set_module_name_object_type_order_live.
Qed.

Lemma always_raises_weaken {A} (Q Q' : exn -> Prop) conf (m : py A) :
  (forall e, Q e -> Q' e) ->
  always_raises Q conf m -> always_raises Q' conf m.
Proof.
  intros HQ Hm h r E. destruct (Hm h r E) as (h' & e & He & ?).
  exists h', e. auto.
Qed.

(** One [for ... in qconfig_dict.get(K, [])] statement of [from_dict]. *)
Section phase.
Context {P : Type} (unpack : pyval -> py P) (k : P -> py unit)
        (change : P -> QConfigMapping -> QConfigMapping) (conf : loc)
        (d : gmap string pyval) (K : string).
Hypothesis unpack_total : forall v (h : heap),
  (exists p, unpack v h = (h, Return p))
  \/ (exists e, unpack v h = (h, Raise e) /\ is_unpack_error e = true).
Hypothesis k_change : forall p (h : heap) r,
  h !! conf = Some r -> k p h = (<[conf := change p r]> h, Return tt).
Hypothesis K_list_key : K ∈ list_keys.*1.

Lemma phase_total :
  completes_or_raises
    (fun e => is_unpack_error e = true \/ ~ iterable_valued d) conf
    (for_in (dict_get d K (PList []))
       (fun item => bind (unpack item) k)).
Proof.
  intros h r E. unfold for_in, dict_get.
  destruct (d !! K) as [v|] eqn:EK; simpl.
  - destruct (iter_items v) as [items|] eqn:Ev.
    + destruct (loop_total unpack k change conf unpack_total k_change
                  items h r E) as [?|(h' & e & He & HQ)]; first by left.
      right. exists h', e. auto.
    + right. exists h, TypeError_not_iterable. split; first done.
      right. intros Hd. destruct (Hd K v K_list_key EK) as [l Hl].
      congruence.
  - left. exists r. unfold ret. by rewrite insert_id.
Qed.

Lemma phase_bad items v :
  d !! K = Some (PList items) ->
  v ∈ items ->
  (forall (h : heap) p, unpack v h <> (h, Return p)) ->
  always_raises (fun e => is_unpack_error e = true) conf
    (for_in (dict_get d K (PList []))
       (fun item => bind (unpack item) k)).
Proof.
  intros EK Hin Hbad h r E. unfold for_in, dict_get. rewrite EK. simpl.
  by eapply loop_bad.
Qed.

Lemma phase_good {T} (es : list T) (of_entry : T -> pyval) (parse : T -> P)
  r (h : heap) :
  d !! K = Some (PList (of_entry <$> es)) ->
  (forall e (h : heap), unpack (of_entry e) h = (h, Return (parse e))) ->
  h !! conf = Some r ->
  for_in (dict_get d K (PList [])) (fun item => bind (unpack item) k) h
  = (<[conf := foldl (fun r e => change (parse e) r) r es]> h, Return tt).
Proof.
  intros EK Hparse E. unfold for_in, dict_get. rewrite EK. simpl.
  erewrite (loop_good unpack k change conf k_change _ (parse <$> es));
    [|by apply Forall2_fmap, Forall_Forall2_diag, Forall_forall|done].
  by rewrite foldl_fmap.
Qed.
End phase.

(** A tuple with the wrong number of items does not unpack. *)
Lemma unpack2_wrong_arity t (h : heap) p :
  length t <> 2%nat -> unpack2 (PTuple t) h <> (h, Return p).
Proof.
  intros Ht. destruct (unpack2_total (PTuple t) h)
    as [(a & b & Hi & _)|(e & -> & _)]; last done.
  simpl in Hi. by simplify_eq.
Qed.

Lemma unpack4_wrong_arity t (h : heap) p :
  length t <> 4%nat -> unpack4 (PTuple t) h <> (h, Return p).
Proof.
  intros Ht. destruct (unpack4_total (PTuple t) h)
    as [(a & b & c & d & Hi & _)|(e & -> & _)]; last done.
  simpl in Hi. by simplify_eq.
Qed.

(** The steps of [from_dict] after the registry has been created. *)
Lemma from_dict_unfold d (h : heap) :
  from_dict d h
  = (match d !! GLOBAL_DICT_KEY with
     | Some g => set_global (fresh (dom h)) g ;; ret tt
     | None => ret tt
     end ;;
     for_in (dict_get d OBJECT_TYPE_DICT_KEY (PList []))
       (fun item =>
          p <- unpack2 item ;;
          let '(object_type, qconfig) := p in
          set_object_type (fresh (dom h)) object_type qconfig ;; ret tt) ;;
     for_in (dict_get d MODULE_NAME_REGEX_DICT_KEY (PList []))
       (fun item =>
          p <- unpack2 item ;;
          let '(module_name_regex, qconfig) := p in
          set_module_name_regex (fresh (dom h)) module_name_regex qconfig ;;
          ret tt) ;;
     for_in (dict_get d MODULE_NAME_DICT_KEY (PList []))
       (fun item =>
          p <- unpack2 item ;;
          let '(module_name, qconfig) := p in
          set_module_name (fresh (dom h)) module_name qconfig ;; ret tt) ;;
     for_in (dict_get d MODULE_NAME_OBJECT_TYPE_ORDER_DICT_KEY (PList []))
       (fun item =>
          p <- unpack4 item ;;
          let '(module_name, object_type, index, qconfig) := p in
          set_module_name_object_type_order (fresh (dom h)) module_name
            object_type index qconfig ;;
          ret tt) ;;
     ret (fresh (dom h)))
      (<[fresh (dom h) := __init__]> h).
Proof. reflexivity. Qed.

Lemma global_step_total Q conf (d : gmap string pyval) :
  completes_or_raises Q conf
    (match d !! GLOBAL_DICT_KEY with
     | Some g => set_global conf g ;; ret tt
     | None => ret tt
     end).
Proof.
  intros h r E. left. destruct (d !! GLOBAL_DICT_KEY) as [g|].
  - exists (assign_global_qconfig g r).
    by erewrite bind_Return by by apply set_global_live.
  - exists r. unfold ret. by rewrite insert_id.
Qed.

Lemma foldl_pointwise {A B} (f g : A -> B -> A) a l :
  (forall a x, f a x = g a x) -> foldl f a l = foldl g a l.
Proof.
  intros Hfg. revert a. induction l as [|x l IH]; intros a; simpl; first done.
  by rewrite Hfg, IH.
Qed.

(** [from_dict] on a dictionary of the shape [to_dict] produces rebuilds the
    registry in a new object. *)
Lemma from_dict_dict_display g ots mnrs mns mnotos (h : heap) :
  from_dict
    (dict_display g (to_tuple_list ots) (to_tuple_list mnrs)
       (to_tuple_list mns) (to_tuple_list mnotos)) h
  = (<[fresh (dom h) :=
         {| global_qconfig := g;
            object_type_qconfigs := ots;
            module_name_regex_qconfigs := mnrs;
            module_name_qconfigs := mns;
            module_name_object_type_order_qconfigs := mnotos;
            _object_type_qconfig_dict := [];
            _module_name_regex_qconfig_dict := [];
            _module_name_qconfig_dict := [] |}]> h,
     Return (fresh (dom h))).
Proof.
  rewrite from_dict_unfold.
  destruct (dict_display_lookup g (to_tuple_list ots) (to_tuple_list mnrs)
              (to_tuple_list mns) (to_tuple_list mnotos))
    as (Hg & Hot & Hmnr & Hmn & Hmnoto).
  rewrite Hg.
  erewrite bind_Return; last first.
  { erewrite bind_Return; first done.
    apply set_global_live, lookup_insert_eq. }
  erewrite bind_Return; last first.
  { eapply (phase_good unpack2 _
              (fun p => append_object_type_qconfigs
                          (ObjectTypeEntry.mk p.1 p.2)))
      with (parse := fun e => (ObjectTypeEntry.object_type e,
                               ObjectTypeEntry.qconfig e)).
    - apply object_type_body_change.
    - exact Hot.
    - done.
    - apply lookup_insert_eq. }
  erewrite bind_Return; last first.
  { eapply (phase_good unpack2 _
              (fun p => append_module_name_regex_qconfigs
                          (ModuleNameRegexEntry.mk p.1 p.2)))
      with (parse := fun e => (ModuleNameRegexEntry.module_name_regex e,
                               ModuleNameRegexEntry.qconfig e)).
    - apply module_name_regex_body_change.
    - exact Hmnr.
    - done.
    - apply lookup_insert_eq. }
  erewrite bind_Return; last first.
  { eapply (phase_good unpack2 _
              (fun p => append_module_name_qconfigs
                          (ModuleNameEntry.mk p.1 p.2)))
      with (parse := fun e => (ModuleNameEntry.module_name e,
                               ModuleNameEntry.qconfig e)).
    - apply module_name_body_change.
    - exact Hmn.
    - done.
    - apply lookup_insert_eq. }
  erewrite bind_Return; last first.
  { eapply (phase_good unpack4 _
              (fun p => append_module_name_object_type_order_qconfigs
                          (ModuleNameObjectTypeOrderEntry.mk
                             p.1.1.1 p.1.1.2 p.1.2 p.2)))
      with (parse := fun e =>
                       (ModuleNameObjectTypeOrderEntry.module_name e,
                        ModuleNameObjectTypeOrderEntry.object_type e,
                        ModuleNameObjectTypeOrderEntry.index e,
                        ModuleNameObjectTypeOrderEntry.qconfig e)).
    - apply module_name_object_type_order_body_change.
    - exact Hmnoto.
    - done.
    - apply lookup_insert_eq. }
  unfold ret. rewrite !insert_live_twice. do 2 f_equal. simpl.
  rewrite (foldl_pointwise _
             (fun r e => append_module_name_object_type_order_qconfigs e r))
    by by intros ? [].
  rewrite (foldl_pointwise _
             (fun r e => append_module_name_qconfigs e r))
    by by intros ? [].
  rewrite (foldl_pointwise _
             (fun r e => append_module_name_regex_qconfigs e r))
    by by intros ? [].
  rewrite (foldl_pointwise _
             (fun r e => append_object_type_qconfigs e r))
    by by intros ? [].
  rewrite foldl_append_module_name_object_type_order_qconfigs,
    foldl_append_module_name_qconfigs,
    foldl_append_module_name_regex_qconfigs,
    foldl_append_object_type_qconfigs.
  reflexivity.
Qed.

(** ** The round trip *)

(** Claim C1.  For every registry R, whatever its global value and the
    entries in its four lists, [from_dict(R.to_dict())] returns a registry
    whose global value and four entry lists are equal to R's, element by
    element and in the same order.  The result is a new object, and R itself
    is unchanged. *)
Theorem from_dict_to_dict_round_trip (h : heap) (self : loc)
  (r : QConfigMapping) :
  h !! self = Some r ->
  exists (h' : heap) conf r',
    (d <- to_dict self ;; from_dict d) h = (h', Return conf) /\
    h' !! conf = Some r' /\
    global_qconfig r' = global_qconfig r /\
    object_type_qconfigs r' = object_type_qconfigs r /\
    module_name_regex_qconfigs r' = module_name_regex_qconfigs r /\
    module_name_qconfigs r' = module_name_qconfigs r /\
    module_name_object_type_order_qconfigs r'
    = module_name_object_type_order_qconfigs r /\
    conf <> self /\
    h' !! self = Some r.
Proof.
  intros E.
  assert (fresh (dom h) <> self) as Hne.
  { intros <-. apply (is_fresh (dom h)), elem_of_dom. by eexists. }
  eexists _, (fresh (dom h)), _. split.
  { erewrite bind_Return by by apply to_dict_live.
    apply from_dict_dict_display. }
  split; first apply lookup_insert_eq.
  repeat (split; first done).
  by rewrite lookup_insert_ne.
Qed.

Lemma from_dict_to_dict_round_trip_witness :
  sample_heap !! 1%positive = Some sample_registry /\
  exists (h' : heap) conf r',
    (d <- to_dict 1%positive ;; from_dict d) sample_heap
    = (h', Return conf) /\
    h' !! conf = Some r' /\
    global_qconfig r' = global_qconfig sample_registry /\
    object_type_qconfigs r' = object_type_qconfigs sample_registry /\
    module_name_regex_qconfigs r'
    = module_name_regex_qconfigs sample_registry /\
    module_name_qconfigs r' = module_name_qconfigs sample_registry /\
    module_name_object_type_order_qconfigs r'
    = module_name_object_type_order_qconfigs sample_registry /\
    conf <> 1%positive /\
    h' !! 1%positive = Some sample_registry.
Proof.
  split; [reflexivity|].
  apply (from_dict_to_dict_round_trip sample_heap 1%positive sample_registry).
  reflexivity.
Defined.

(** ** The setters *)

(** Claim C2.  Calling any of the four append-style setters twice with the
    same key fields [k] (and [t], [i] for the last one) and two configs
    [q1], [q2] leaves the category's list as it was, followed by two new
    entries, the one with [q1] and then the one with [q2]: nothing is
    merged, removed or updated in place. *)
Theorem setters_append_twice (h : heap) (self : loc) (r : QConfigMapping)
  (k t i q1 q2 : pyval) :
  h !! self = Some r ->
  (exists r',
     (s <- set_object_type self k q1 ;; set_object_type s k q2) h
     = (<[self := r']> h, Return self) /\
     object_type_qconfigs r'
     = object_type_qconfigs r
       ++ [ObjectTypeEntry.mk k q1; ObjectTypeEntry.mk k q2]) /\
  (exists r',
     (s <- set_module_name_regex self k q1 ;; set_module_name_regex s k q2) h
     = (<[self := r']> h, Return self) /\
     module_name_regex_qconfigs r'
     = module_name_regex_qconfigs r
       ++ [ModuleNameRegexEntry.mk k q1; ModuleNameRegexEntry.mk k q2]) /\
  (exists r',
     (s <- set_module_name self k q1 ;; set_module_name s k q2) h
     = (<[self := r']> h, Return self) /\
     module_name_qconfigs r'
     = module_name_qconfigs r
       ++ [ModuleNameEntry.mk k q1; ModuleNameEntry.mk k q2]) /\
  (exists r',
     (s <- set_module_name_object_type_order self k t i q1 ;;
      set_module_name_object_type_order s k t i q2) h
     = (<[self := r']> h, Return self) /\
     module_name_object_type_order_qconfigs r'
     = module_name_object_type_order_qconfigs r
       ++ [ModuleNameObjectTypeOrderEntry.mk k t i q1;
           ModuleNameObjectTypeOrderEntry.mk k t i q2]).
Proof.
  intros E. repeat split.
  - eexists. split.
    + erewrite bind_Return by by apply set_object_type_live.
      erewrite set_object_type_live by apply lookup_insert_eq.
      by rewrite insert_live_twice.
    + simpl. by rewrite <- app_assoc.
  - eexists. split.
    + erewrite bind_Return by by apply set_module_name_regex_live.
      erewrite set_module_name_regex_live by apply lookup_insert_eq.
      by rewrite insert_live_twice.
    + simpl. by rewrite <- app_assoc.
  - eexists. split.
    + erewrite bind_Return by by apply set_module_name_live.
      erewrite set_module_name_live by apply lookup_insert_eq.
      by rewrite insert_live_twice.
    + simpl. by rewrite <- app_assoc.
  - eexists. split.
    + erewrite bind_Return
        by by apply set_module_name_object_type_order_live.
      erewrite set_module_name_object_type_order_live
        by apply lookup_insert_eq.
      by rewrite insert_live_twice.
    + simpl. by rewrite <- app_assoc.
Qed.

Lemma setters_append_twice_witness :
  sample_heap !! 1%positive = Some sample_registry /\
  (exists r',
     (s <- set_object_type 1%positive (PObj 20) (PObj 1) ;;
      set_object_type s (PObj 20) (PObj 2)) sample_heap
     = (<[1%positive := r']> sample_heap, Return 1%positive) /\
     object_type_qconfigs r'
     = object_type_qconfigs sample_registry
       ++ [ObjectTypeEntry.mk (PObj 20) (PObj 1);
           ObjectTypeEntry.mk (PObj 20) (PObj 2)]) /\
  (exists r',
     (s <- set_module_name_regex 1%positive (PObj 20) (PObj 1) ;;
      set_module_name_regex s (PObj 20) (PObj 2)) sample_heap
     = (<[1%positive := r']> sample_heap, Return 1%positive) /\
     module_name_regex_qconfigs r'
     = module_name_regex_qconfigs sample_registry
       ++ [ModuleNameRegexEntry.mk (PObj 20) (PObj 1);
           ModuleNameRegexEntry.mk (PObj 20) (PObj 2)]) /\
  (exists r',
     (s <- set_module_name 1%positive (PObj 20) (PObj 1) ;;
      set_module_name s (PObj 20) (PObj 2)) sample_heap
     = (<[1%positive := r']> sample_heap, Return 1%positive) /\
     module_name_qconfigs r'
     = module_name_qconfigs sample_registry
       ++ [ModuleNameEntry.mk (PObj 20) (PObj 1);
           ModuleNameEntry.mk (PObj 20) (PObj 2)]) /\
  (exists r',
     (s <- set_module_name_object_type_order 1%positive (PObj 20) (PObj 22)
             (PInt 0) (PObj 1) ;;
      set_module_name_object_type_order s (PObj 20) (PObj 22) (PInt 0)
        (PObj 2)) sample_heap
     = (<[1%positive := r']> sample_heap, Return 1%positive) /\
     module_name_object_type_order_qconfigs r'
     = module_name_object_type_order_qconfigs sample_registry
       ++ [ModuleNameObjectTypeOrderEntry.mk (PObj 20) (PObj 22) (PInt 0)
             (PObj 1);
           ModuleNameObjectTypeOrderEntry.mk (PObj 20) (PObj 22) (PInt 0)
             (PObj 2)]).
Proof.
  split; [reflexivity|].
  apply (setters_append_twice sample_heap 1%positive sample_registry
           (PObj 20) (PObj 22) (PInt 0) (PObj 1) (PObj 2)).
  reflexivity.
Defined.

(** Claim C3.  When the entries E1, ..., En are added to one category by
    calls of its setter in that order, [to_dict] lists them under the
    category's key in exactly that order, after the entries the category
    held before; nothing is sorted or moved.  On a new registry the output
    list is E1, ..., En itself. *)
Theorem to_dict_keeps_call_order (h : heap) (self : loc)
  (r : QConfigMapping) ots mnrs mns mnotos :
  h !! self = Some r ->
  (exists (h' : heap) d,
     (s <- chain set_object_type_entry self ots ;; to_dict s) h
     = (h', Return d) /\
     d !! OBJECT_TYPE_DICT_KEY
     = Some (PList
               ((fun e => PTuple [ObjectTypeEntry.object_type e;
                                  ObjectTypeEntry.qconfig e])
                  <$> (object_type_qconfigs r ++ ots)))) /\
  (exists (h' : heap) d,
     (s <- chain set_module_name_regex_entry self mnrs ;; to_dict s) h
     = (h', Return d) /\
     d !! MODULE_NAME_REGEX_DICT_KEY
     = Some (PList
               ((fun e => PTuple [ModuleNameRegexEntry.module_name_regex e;
                                  ModuleNameRegexEntry.qconfig e])
                  <$> (module_name_regex_qconfigs r ++ mnrs)))) /\
  (exists (h' : heap) d,
     (s <- chain set_module_name_entry self mns ;; to_dict s) h
     = (h', Return d) /\
     d !! MODULE_NAME_DICT_KEY
     = Some (PList
               ((fun e => PTuple [ModuleNameEntry.module_name e;
                                  ModuleNameEntry.qconfig e])
                  <$> (module_name_qconfigs r ++ mns)))) /\
  (exists (h' : heap) d,
     (s <- chain set_module_name_object_type_order_entry self mnotos ;;
      to_dict s) h
     = (h', Return d) /\
     d !! MODULE_NAME_OBJECT_TYPE_ORDER_DICT_KEY
     = Some (PList
               ((fun e =>
                   PTuple [ModuleNameObjectTypeOrderEntry.module_name e;
                           ModuleNameObjectTypeOrderEntry.object_type e;
                           ModuleNameObjectTypeOrderEntry.index e;
                           ModuleNameObjectTypeOrderEntry.qconfig e])
                  <$> (module_name_object_type_order_qconfigs r ++ mnotos)))).
Proof.
  intros E. repeat split.
  - eexists _, _. split.
    + erewrite bind_Return
        by by apply (chain_live _ _ set_object_type_entry_live).
      apply to_dict_live, lookup_insert_eq.
    + rewrite foldl_append_object_type_qconfigs.
      apply dict_display_lookup.
  - eexists _, _. split.
    + erewrite bind_Return
        by by apply (chain_live _ _ set_module_name_regex_entry_live).
      apply to_dict_live, lookup_insert_eq.
    + rewrite foldl_append_module_name_regex_qconfigs.
      apply dict_display_lookup.
  - eexists _, _. split.
    + erewrite bind_Return
        by by apply (chain_live _ _ set_module_name_entry_live).
      apply to_dict_live, lookup_insert_eq.
    + rewrite foldl_append_module_name_qconfigs.
      apply dict_display_lookup.
  - eexists _, _. split.
    + erewrite bind_Return
        by by apply (chain_live _ _
                       set_module_name_object_type_order_entry_live).
      apply to_dict_live, lookup_insert_eq.
    + rewrite foldl_append_module_name_object_type_order_qconfigs.
      apply dict_display_lookup.
Qed.

Lemma to_dict_keeps_call_order_witness :
  sample_heap !! 2%positive = Some __init__ /\
  (exists (h' : heap) d,
     (s <- chain set_object_type_entry 2%positive
             (object_type_qconfigs sample_registry) ;; to_dict s) sample_heap
     = (h', Return d) /\
     d !! OBJECT_TYPE_DICT_KEY
     = Some (PList
               ((fun e => PTuple [ObjectTypeEntry.object_type e;
                                  ObjectTypeEntry.qconfig e])
                  <$> (object_type_qconfigs __init__
                       ++ object_type_qconfigs sample_registry)))) /\
  (exists (h' : heap) d,
     (s <- chain set_module_name_regex_entry 2%positive
             (module_name_regex_qconfigs sample_registry) ;; to_dict s)
       sample_heap
     = (h', Return d) /\
     d !! MODULE_NAME_REGEX_DICT_KEY
     = Some (PList
               ((fun e => PTuple [ModuleNameRegexEntry.module_name_regex e;
                                  ModuleNameRegexEntry.qconfig e])
                  <$> (module_name_regex_qconfigs __init__
                       ++ module_name_regex_qconfigs sample_registry)))) /\
  (exists (h' : heap) d,
     (s <- chain set_module_name_entry 2%positive
             (module_name_qconfigs sample_registry) ;; to_dict s) sample_heap
     = (h', Return d) /\
     d !! MODULE_NAME_DICT_KEY
     = Some (PList
               ((fun e => PTuple [ModuleNameEntry.module_name e;
                                  ModuleNameEntry.qconfig e])
                  <$> (module_name_qconfigs __init__
                       ++ module_name_qconfigs sample_registry)))) /\
  (exists (h' : heap) d,
     (s <- chain set_module_name_object_type_order_entry 2%positive
             (module_name_object_type_order_qconfigs sample_registry) ;;
      to_dict s) sample_heap
     = (h', Return d) /\
     d !! MODULE_NAME_OBJECT_TYPE_ORDER_DICT_KEY
     = Some (PList
               ((fun e =>
                   PTuple [ModuleNameObjectTypeOrderEntry.module_name e;
                           ModuleNameObjectTypeOrderEntry.object_type e;
                           ModuleNameObjectTypeOrderEntry.index e;
                           ModuleNameObjectTypeOrderEntry.qconfig e])
                  <$> (module_name_object_type_order_qconfigs __init__
                       ++ module_name_object_type_order_qconfigs
                            sample_registry)))).
Proof.
  split; [reflexivity|].
  apply (to_dict_keeps_call_order sample_heap 2%positive __init__
           (object_type_qconfigs sample_registry)
           (module_name_regex_qconfigs sample_registry)
           (module_name_qconfigs sample_registry)
           (module_name_object_type_order_qconfigs sample_registry)).
  reflexivity.
Defined.

(** ** The dictionary form *)

Lemma dict_display_dom g ot mnr mn mnoto :
  dom (dict_display g ot mnr mn mnoto)
  = (list_to_set recognised_keys : gset string).
Proof.
  unfold dict_display. rewrite !dom_insert_L, dom_empty_L.
  unfold recognised_keys, list_keys. simpl. set_solver.
Qed.

Lemma global_never_set_None r : global_never_set r -> global_qconfig r = PNone.
Proof. induction 1; done. Qed.

(** Claim C4.  The dictionary [to_dict] returns has exactly the five keys
    [""], ["object_type"], ["module_name_regex"], ["module_name"] and
    ["module_name_object_type_order"].  Each of the four list values is the
    sequence of the category's entries, every entry a tuple of fixed arity
    holding its attributes in declaration order with the config last (two
    items, four for the last category).  The value at [""] is the global
    config as it was given, and [None] when [set_global] was never called. *)
Theorem to_dict_shape (h : heap) (self : loc) (r : QConfigMapping) :
  h !! self = Some r ->
  exists d,
    to_dict self h = (h, Return d) /\
    dom d = list_to_set recognised_keys /\
    d !! GLOBAL_DICT_KEY = Some (global_qconfig r) /\
    (global_never_set r -> d !! GLOBAL_DICT_KEY = Some PNone) /\
    d !! OBJECT_TYPE_DICT_KEY
    = Some (PList
              ((fun e => PTuple [ObjectTypeEntry.object_type e;
                                 ObjectTypeEntry.qconfig e])
                 <$> object_type_qconfigs r)) /\
    d !! MODULE_NAME_REGEX_DICT_KEY
    = Some (PList
              ((fun e => PTuple [ModuleNameRegexEntry.module_name_regex e;
                                 ModuleNameRegexEntry.qconfig e])
                 <$> module_name_regex_qconfigs r)) /\
    d !! MODULE_NAME_DICT_KEY
    = Some (PList
              ((fun e => PTuple [ModuleNameEntry.module_name e;
                                 ModuleNameEntry.qconfig e])
                 <$> module_name_qconfigs r)) /\
    d !! MODULE_NAME_OBJECT_TYPE_ORDER_DICT_KEY
    = Some (PList
              ((fun e =>
                  PTuple [ModuleNameObjectTypeOrderEntry.module_name e;
                          ModuleNameObjectTypeOrderEntry.object_type e;
                          ModuleNameObjectTypeOrderEntry.index e;
                          ModuleNameObjectTypeOrderEntry.qconfig e])
                 <$> module_name_object_type_order_qconfigs r)).
Proof.
  intros E. eexists. split; first by apply to_dict_live.
  split; first apply dict_display_dom.
  match goal with
  | |- context [dict_display ?g ?a ?b ?c ?d] =>
      destruct (dict_display_lookup g a b c d) as (Hg & Ha & Hb & Hc & Hd)
  end.
  split; first done.
  split; first by (intros Hn; rewrite Hg, (global_never_set_None r Hn)).
  done.
Qed.

Lemma to_dict_shape_witness :
  sample_heap !! 1%positive = Some sample_registry /\
  exists d,
    to_dict 1%positive sample_heap = (sample_heap, Return d) /\
    dom d = list_to_set recognised_keys /\
    d !! GLOBAL_DICT_KEY = Some (PObj 10) /\
    (global_never_set sample_registry -> d !! GLOBAL_DICT_KEY = Some PNone) /\
    d !! OBJECT_TYPE_DICT_KEY
    = Some (PList [PTuple [PObj 20; PObj 1]; PTuple [PObj 21; PObj 1]]) /\
    d !! MODULE_NAME_REGEX_DICT_KEY
    = Some (PList [PTuple [PStr "foo.*bar.*conv[0-9]+"; PObj 1];
                   PTuple [PStr "foo.*"; PObj 2]]) /\
    d !! MODULE_NAME_DICT_KEY
    = Some (PList [PTuple [PStr "module1"; PObj 1];
                   PTuple [PStr "module2"; PObj 2]]) /\
    d !! MODULE_NAME_OBJECT_TYPE_ORDER_DICT_KEY
    = Some (PList [PTuple [PStr "foo.bar"; PObj 22; PInt 0; PObj 3]]).
Proof.
  split; [reflexivity|].
  apply (to_dict_shape sample_heap 1%positive sample_registry).
  reflexivity.
Defined.

(** Claim C5.  [set_global(A)] followed by [set_global(B)] leaves [B] as the
    global config; the registry ends in the very state a single
    [set_global(B)] gives, so [A] is kept nowhere, and the four lists (and
    the private dictionaries) are as before. *)
Theorem set_global_overwrites (h : heap) (self : loc) (r : QConfigMapping)
  (A B : pyval) :
  h !! self = Some r ->
  exists r',
    (s <- set_global self A ;; set_global s B) h
    = (<[self := r']> h, Return self) /\
    set_global self B h = (<[self := r']> h, Return self) /\
    global_qconfig r' = B /\
    object_type_qconfigs r' = object_type_qconfigs r /\
    module_name_regex_qconfigs r' = module_name_regex_qconfigs r /\
    module_name_qconfigs r' = module_name_qconfigs r /\
    module_name_object_type_order_qconfigs r'
    = module_name_object_type_order_qconfigs r /\
    private_dicts r' = private_dicts r.
Proof.
  intros E. exists (assign_global_qconfig B r). split.
  { erewrite bind_Return by by apply set_global_live.
    erewrite set_global_live by apply lookup_insert_eq.
    by rewrite insert_live_twice. }
  split; first by apply set_global_live.
  done.
Qed.

Lemma set_global_overwrites_witness :
  sample_heap !! 1%positive = Some sample_registry /\
  exists r',
    (s <- set_global 1%positive (PObj 11) ;; set_global s (PObj 12))
      sample_heap
    = (<[1%positive := r']> sample_heap, Return 1%positive) /\
    set_global 1%positive (PObj 12) sample_heap
    = (<[1%positive := r']> sample_heap, Return 1%positive) /\
    global_qconfig r' = PObj 12 /\
    object_type_qconfigs r' = object_type_qconfigs sample_registry /\
    module_name_regex_qconfigs r'
    = module_name_regex_qconfigs sample_registry /\
    module_name_qconfigs r' = module_name_qconfigs sample_registry /\
    module_name_object_type_order_qconfigs r'
    = module_name_object_type_order_qconfigs sample_registry /\
    private_dicts r' = private_dicts sample_registry.
Proof.
  split; [reflexivity|].
  apply (set_global_overwrites sample_heap 1%positive sample_registry
           (PObj 11) (PObj 12)).
  reflexivity.
Defined.

(** ** Reading a dictionary *)

(** Claim C6.  [from_dict({})] returns a new registry in which the global
    config is unset ([None]) and every entry list is empty (the class keeps
    four lists; with the global config these are the five categories of the
    dictionary form, which reads [None] and four empty lists). *)
Theorem from_dict_empty (h : heap) :
  exists conf r',
    from_dict ∅ h = (<[conf := r']> h, Return conf) /\
    h !! conf = None /\
    global_qconfig r' = PNone /\
    object_type_qconfigs r' = [] /\
    module_name_regex_qconfigs r' = [] /\
    module_name_qconfigs r' = [] /\
    module_name_object_type_order_qconfigs r' = [] /\
    private_dicts r' = ([], [], []) /\
    to_dict conf (<[conf := r']> h)
    = (<[conf := r']> h,
       Return (dict_display PNone (PList []) (PList []) (PList [])
                 (PList []))).
Proof.
  exists (fresh (dom h)), __init__. split.
  { rewrite from_dict_unfold. unfold dict_get. by rewrite !lookup_empty. }
  split; first apply not_elem_of_dom, is_fresh.
  repeat (split; first done).
  by erewrite to_dict_live by apply lookup_insert_eq.
Qed.

(** Claim C7.  Two dictionaries that hold the same values (or both nothing)
    at the five recognised keys give the same result from [from_dict], in
    the same store, whatever other keys they hold: unknown keys are not
    read. *)
Theorem from_dict_ignores_unknown_keys (d1 d2 : gmap string pyval)
  (h : heap) :
  (forall k, k ∈ recognised_keys -> d1 !! k = d2 !! k) ->
  from_dict d1 h = from_dict d2 h.
Proof.
  intros Hk. unfold from_dict, dict_get.
  rewrite (Hk GLOBAL_DICT_KEY), (Hk OBJECT_TYPE_DICT_KEY),
    (Hk MODULE_NAME_REGEX_DICT_KEY), (Hk MODULE_NAME_DICT_KEY),
    (Hk MODULE_NAME_OBJECT_TYPE_ORDER_DICT_KEY);
    first done; unfold recognised_keys, list_keys; simpl; set_solver.
Qed.

Lemma from_dict_ignores_unknown_keys_witness :
  (forall k, k ∈ recognised_keys ->
             sample_dict_1 !! k = sample_dict_2 !! k) /\
  from_dict sample_dict_1 sample_heap = from_dict sample_dict_2 sample_heap.
Proof.
  assert (forall k, k ∈ recognised_keys ->
                    sample_dict_1 !! k = sample_dict_2 !! k) as Hk.
  { intros k Hk. unfold recognised_keys, list_keys in Hk. simpl in Hk.
    repeat (apply elem_of_cons in Hk as [->|Hk]); try reflexivity.
    by apply elem_of_nil in Hk. }
  split; [exact Hk|].
  apply (from_dict_ignores_unknown_keys sample_dict_1 sample_dict_2
           sample_heap Hk).
Defined.

Lemma always_raises_apply {A} Q conf (m : py A) (h : heap) r :
  always_raises Q conf m -> h !! conf = Some r ->
  exists h' e, m h = (h', Raise e) /\ Q e.
Proof. intros Hm E. by apply (Hm h r). Qed.

Lemma list_key_elem K n :
  (K, n) ∈ list_keys -> K ∈ list_keys.*1.
Proof. intros H. apply list_elem_of_fmap. by exists (K, n). Qed.

(** A step of [from_dict] before the one that meets the bad tuple either
    completes or raises; the step that meets it raises. *)
Ltac step_completes body_change :=
  eapply always_raises_then;
  [ eapply phase_total;
    [ first [apply unpack2_returns_or_raises
            |apply unpack4_returns_or_raises]
    | apply body_change
    | by (unfold list_keys; simpl; set_solver) ]
  | ].

Ltac step_raises body_change wrong_arity :=
  eapply always_raises_first,
    (always_raises_weaken (fun e => is_unpack_error e = true));
  [ intros ? ?; by left
  | eapply phase_bad;
    [ first [apply unpack2_returns_or_raises
            |apply unpack4_returns_or_raises]
    | apply body_change
    | eassumption
    | eassumption
    | intros; by apply wrong_arity ] ].

Lemma from_dict_wrong_arity_raises (d : gmap string pyval) (h : heap)
  (K : string) (n : nat) (items t : list pyval) :
  (K, n) ∈ list_keys ->
  d !! K = Some (PList items) ->
  PTuple t ∈ items ->
  length t <> n ->
  exists h' e,
    from_dict d h = (h', Raise e) /\
    (is_unpack_error e = true \/ ~ iterable_valued d).
Proof.
  intros HK EK Hin Hlen. rewrite from_dict_unfold.
  eapply always_raises_apply; last apply lookup_insert_eq.
  eapply always_raises_then; first apply global_step_total.
  unfold list_keys in HK.
  repeat (apply elem_of_cons in HK as [HK|HK]; first simplify_eq).
  - step_raises object_type_body_change unpack2_wrong_arity.
  - step_completes object_type_body_change.
    step_raises module_name_regex_body_change unpack2_wrong_arity.
  - step_completes object_type_body_change.
    step_completes module_name_regex_body_change.
    step_raises module_name_body_change unpack2_wrong_arity.
  - step_completes object_type_body_change.
    step_completes module_name_regex_body_change.
    step_completes module_name_body_change.
    step_raises module_name_object_type_order_body_change
      unpack4_wrong_arity.
  - by apply elem_of_nil in HK.
Qed.

(** Claim C8.  When one of the four list keys holds a list with a tuple of
    the wrong arity (not 2, or not 4 for ["module_name_object_type_order"]),
    [from_dict] returns no registry: it raises.  Nothing is checked ahead of
    the loops, so the exception is whatever the first offending item
    provokes; when every list key holds an iterable, it is an error of
    unpacking an item into the loop targets (too many or not enough values,
    or an item that cannot be unpacked at all). *)
Theorem from_dict_wrong_arity (d : gmap string pyval) (h : heap)
  (K : string) (n : nat) (items t : list pyval) :
  (K, n) ∈ list_keys ->
  d !! K = Some (PList items) ->
  PTuple t ∈ items ->
  length t <> n ->
  (exists h' e, from_dict d h = (h', Raise e)) /\
  (iterable_valued d ->
   exists h' e, from_dict d h = (h', Raise e) /\ is_unpack_error e = true).
Proof.
  intros HK EK Hin Hlen.
  destruct (from_dict_wrong_arity_raises d h K n items t HK EK Hin Hlen)
    as (h' & e & He & HQ).
  split; first by exists h', e.
  intros Hd. exists h', e. split; first done. by destruct HQ.
Qed.

Lemma from_dict_wrong_arity_witness :
  (MODULE_NAME_DICT_KEY, 2%nat) ∈ list_keys /\
  sample_dict_bad !! MODULE_NAME_DICT_KEY
  = Some (PList [PTuple [PStr "module1"; PObj 1];
                 PTuple [PStr "module2"; PObj 20; PObj 2]]) /\
  PTuple [PStr "module2"; PObj 20; PObj 2]
    ∈ [PTuple [PStr "module1"; PObj 1];
       PTuple [PStr "module2"; PObj 20; PObj 2]] /\
  length [PStr "module2"; PObj 20; PObj 2] <> 2%nat /\
  (exists h' e, from_dict sample_dict_bad sample_heap = (h', Raise e)) /\
  (iterable_valued sample_dict_bad ->
   exists h' e, from_dict sample_dict_bad sample_heap = (h', Raise e) /\
                is_unpack_error e = true).
Proof.
  assert ((MODULE_NAME_DICT_KEY, 2%nat) ∈ list_keys) as H1.
  { unfold list_keys. do 2 apply list_elem_of_further.
    apply list_elem_of_here. }
  assert (PTuple [PStr "module2"; PObj 20; PObj 2]
            ∈ [PTuple [PStr "module1"; PObj 1];
               PTuple [PStr "module2"; PObj 20; PObj 2]]) as H3.
  { apply list_elem_of_further, list_elem_of_here. }
  assert (length [PStr "module2"; PObj 20; PObj 2] <> 2%nat) as H4
    by (simpl; lia).
  split; [exact H1|]. split; [reflexivity|].
  split; [exact H3|]. split; [exact H4|].
  apply (from_dict_wrong_arity sample_dict_bad sample_heap
           MODULE_NAME_DICT_KEY 2%nat _ _ H1 eq_refl H3 H4).
Defined.

(** The sample dictionary with a three-item tuple under ["module_name"]:
    the entries met before the tuple are registered, then unpacking it
    raises. *)
Example from_dict_sample_dict_bad :
  from_dict sample_dict_bad ∅
  = ({[ 1%positive :=
          {| global_qconfig := PNone;
             object_type_qconfigs := [ObjectTypeEntry.mk (PObj 20) (PObj 1)];
             module_name_regex_qconfigs := [];
             module_name_qconfigs :=
               [ModuleNameEntry.mk (PStr "module1") (PObj 1)];
             module_name_object_type_order_qconfigs := [];
             _object_type_qconfig_dict := [];
             _module_name_regex_qconfig_dict := [];
             _module_name_qconfig_dict := [] |} ]},
     Raise (ValueError_too_many 2)).
Proof. reflexivity. Qed.

(** An item that is no iterable at all raises before a later tuple of the
    wrong arity is reached. *)
Example from_dict_not_iterable_item :
  from_dict
    (<[OBJECT_TYPE_DICT_KEY := PList [PInt 5; PTuple [PObj 20]]]> ∅) ∅
  = ({[ 1%positive := __init__ ]}, Raise TypeError_cannot_unpack).
Proof. reflexivity. Qed.

(** ** Frame properties *)

(** Claim C9.  Each of the five setters, called on a registry with any
    arguments, returns the very reference it was called on, does not raise,
    changes in the store nothing but that registry, and in the registry
    nothing but its own attribute: [set_global] replaces the global config,
    each other setter adds its entry at the end of its own list. *)
Theorem setters_return_self (h : heap) (self : loc) (r : QConfigMapping)
  (q k t i : pyval) :
  h !! self = Some r ->
  (exists r',
     set_global self q h = (<[self := r']> h, Return self) /\
     global_qconfig r' = q /\
     object_type_qconfigs r' = object_type_qconfigs r /\
     module_name_regex_qconfigs r' = module_name_regex_qconfigs r /\
     module_name_qconfigs r' = module_name_qconfigs r /\
     module_name_object_type_order_qconfigs r'
     = module_name_object_type_order_qconfigs r /\
     private_dicts r' = private_dicts r) /\
  (exists r',
     set_object_type self k q h = (<[self := r']> h, Return self) /\
     global_qconfig r' = global_qconfig r /\
     object_type_qconfigs r'
     = object_type_qconfigs r ++ [ObjectTypeEntry.mk k q] /\
     module_name_regex_qconfigs r' = module_name_regex_qconfigs r /\
     module_name_qconfigs r' = module_name_qconfigs r /\
     module_name_object_type_order_qconfigs r'
     = module_name_object_type_order_qconfigs r /\
     private_dicts r' = private_dicts r) /\
  (exists r',
     set_module_name_regex self k q h = (<[self := r']> h, Return self) /\
     global_qconfig r' = global_qconfig r /\
     object_type_qconfigs r' = object_type_qconfigs r /\
     module_name_regex_qconfigs r'
     = module_name_regex_qconfigs r ++ [ModuleNameRegexEntry.mk k q] /\
     module_name_qconfigs r' = module_name_qconfigs r /\
     module_name_object_type_order_qconfigs r'
     = module_name_object_type_order_qconfigs r /\
     private_dicts r' = private_dicts r) /\
  (exists r',
     set_module_name self k q h = (<[self := r']> h, Return self) /\
     global_qconfig r' = global_qconfig r /\
     object_type_qconfigs r' = object_type_qconfigs r /\
     module_name_regex_qconfigs r' = module_name_regex_qconfigs r /\
     module_name_qconfigs r'
     = module_name_qconfigs r ++ [ModuleNameEntry.mk k q] /\
     module_name_object_type_order_qconfigs r'
     = module_name_object_type_order_qconfigs r /\
     private_dicts r' = private_dicts r) /\
  (exists r',
     set_module_name_object_type_order self k t i q h
     = (<[self := r']> h, Return self) /\
     global_qconfig r' = global_qconfig r /\
     object_type_qconfigs r' = object_type_qconfigs r /\
     module_name_regex_qconfigs r' = module_name_regex_qconfigs r /\
     module_name_qconfigs r' = module_name_qconfigs r /\
     module_name_object_type_order_qconfigs r'
     = module_name_object_type_order_qconfigs r
       ++ [ModuleNameObjectTypeOrderEntry.mk k t i q] /\
     private_dicts r' = private_dicts r).
Proof.
  intros E.
  split; [|split; [|split; [|split]]]; eexists.
  - split; [by apply set_global_live|done].
  - split; [by apply set_object_type_live|done].
  - split; [by apply set_module_name_regex_live|done].
  - split; [by apply set_module_name_live|done].
  - split; [by apply set_module_name_object_type_order_live|done].
Qed.

Lemma setters_return_self_witness :
  sample_heap !! 1%positive = Some sample_registry /\
  (exists r',
     set_global 1%positive (PObj 12) sample_heap
     = (<[1%positive := r']> sample_heap, Return 1%positive) /\
     global_qconfig r' = PObj 12 /\
     object_type_qconfigs r' = object_type_qconfigs sample_registry /\
     module_name_regex_qconfigs r'
     = module_name_regex_qconfigs sample_registry /\
     module_name_qconfigs r' = module_name_qconfigs sample_registry /\
     module_name_object_type_order_qconfigs r'
     = module_name_object_type_order_qconfigs sample_registry /\
     private_dicts r' = private_dicts sample_registry) /\
  (exists r',
     set_object_type 1%positive (PStr "relu") (PObj 12) sample_heap
     = (<[1%positive := r']> sample_heap, Return 1%positive) /\
     global_qconfig r' = global_qconfig sample_registry /\
     object_type_qconfigs r'
     = object_type_qconfigs sample_registry
       ++ [ObjectTypeEntry.mk (PStr "relu") (PObj 12)] /\
     module_name_regex_qconfigs r'
     = module_name_regex_qconfigs sample_registry /\
     module_name_qconfigs r' = module_name_qconfigs sample_registry /\
     module_name_object_type_order_qconfigs r'
     = module_name_object_type_order_qconfigs sample_registry /\
     private_dicts r' = private_dicts sample_registry) /\
  (exists r',
     set_module_name_regex 1%positive (PStr "relu") (PObj 12) sample_heap
     = (<[1%positive := r']> sample_heap, Return 1%positive) /\
     global_qconfig r' = global_qconfig sample_registry /\
     object_type_qconfigs r' = object_type_qconfigs sample_registry /\
     module_name_regex_qconfigs r'
     = module_name_regex_qconfigs sample_registry
       ++ [ModuleNameRegexEntry.mk (PStr "relu") (PObj 12)] /\
     module_name_qconfigs r' = module_name_qconfigs sample_registry /\
     module_name_object_type_order_qconfigs r'
     = module_name_object_type_order_qconfigs sample_registry /\
     private_dicts r' = private_dicts sample_registry) /\
  (exists r',
     set_module_name 1%positive (PStr "relu") (PObj 12) sample_heap
     = (<[1%positive := r']> sample_heap, Return 1%positive) /\
     global_qconfig r' = global_qconfig sample_registry /\
     object_type_qconfigs r' = object_type_qconfigs sample_registry /\
     module_name_regex_qconfigs r'
     = module_name_regex_qconfigs sample_registry /\
     module_name_qconfigs r'
     = module_name_qconfigs sample_registry
       ++ [ModuleNameEntry.mk (PStr "relu") (PObj 12)] /\
     module_name_object_type_order_qconfigs r'
     = module_name_object_type_order_qconfigs sample_registry /\
     private_dicts r' = private_dicts sample_registry) /\
  (exists r',
     set_module_name_object_type_order 1%positive (PStr "relu") (PObj 22)
       (PInt 1) (PObj 12) sample_heap
     = (<[1%positive := r']> sample_heap, Return 1%positive) /\
     global_qconfig r' = global_qconfig sample_registry /\
     object_type_qconfigs r' = object_type_qconfigs sample_registry /\
     module_name_regex_qconfigs r'
     = module_name_regex_qconfigs sample_registry /\
     module_name_qconfigs r' = module_name_qconfigs sample_registry /\
     module_name_object_type_order_qconfigs r'
     = module_name_object_type_order_qconfigs sample_registry
       ++ [ModuleNameObjectTypeOrderEntry.mk (PStr "relu") (PObj 22)
             (PInt 1) (PObj 12)] /\
     private_dicts r' = private_dicts sample_registry).
Proof.
  split; [reflexivity|].
  apply (setters_return_self sample_heap 1%positive sample_registry
           (PObj 12) (PStr "relu") (PObj 22) (PInt 1)).
  reflexivity.
Defined.

Lemma to_dict_times_live n self (h : heap) r :
  h !! self = Some r -> to_dict_times n self h = (h, Return tt).
Proof.
  intros E. unfold to_dict_times. induction n as [|n IH]; simpl; first done.
  erewrite bind_Return; first exact IH.
  by erewrite bind_Return by by apply to_dict_live.
Qed.

(** Claim C10.  [to_dict] only reads: it leaves the store as it found it,
    so the registry keeps its global config and its four lists, and after
    any number of calls a further call returns the same dictionary. *)
Theorem to_dict_pure (h : heap) (self : loc) (r : QConfigMapping) :
  h !! self = Some r ->
  exists d,
    to_dict self h = (h, Return d) /\
    forall n, (to_dict_times n self ;; to_dict self) h = (h, Return d).
Proof.
  intros E. eexists. split; first by apply to_dict_live.
  intros n. rewrite (bind_Return _ _ _ _ _ (to_dict_times_live n self h r E)).
  by apply to_dict_live.
Qed.

Lemma to_dict_pure_witness :
  sample_heap !! 1%positive = Some sample_registry /\
  exists d,
    to_dict 1%positive sample_heap = (sample_heap, Return d) /\
    forall n,
      (to_dict_times n 1%positive ;; to_dict 1%positive) sample_heap
      = (sample_heap, Return d).
Proof.
  split; [reflexivity|].
  apply (to_dict_pure sample_heap 1%positive sample_registry).
  reflexivity.
Defined.

(** * Further properties of the class *)

(** ** Any sequence of setter calls *)

Lemma call_live self c (h : heap) r :
  h !! self = Some r ->
  call self c h = (<[self := call_change c r]> h, Return self).
Proof. intros E. destruct c; by apply setter_live. Qed.

Lemma foldl_call_change cs r :
  global_qconfig (foldl (fun r c => call_change c r) r cs)
  = default (global_qconfig r) (last (global_calls cs)) /\
  object_type_qconfigs (foldl (fun r c => call_change c r) r cs)
  = object_type_qconfigs r ++ object_type_calls cs /\
  module_name_regex_qconfigs (foldl (fun r c => call_change c r) r cs)
  = module_name_regex_qconfigs r ++ module_name_regex_calls cs /\
  module_name_qconfigs (foldl (fun r c => call_change c r) r cs)
  = module_name_qconfigs r ++ module_name_calls cs /\
  module_name_object_type_order_qconfigs
    (foldl (fun r c => call_change c r) r cs)
  = module_name_object_type_order_qconfigs r
    ++ module_name_object_type_order_calls cs /\
  private_dicts (foldl (fun r c => call_change c r) r cs) = private_dicts r.
Proof.
  revert r. induction cs as [|c cs IH]; intros r.
  - simpl. by rewrite !app_nil_r.
  - simpl foldl.
    destruct (IH (call_change c r)) as (Hg & H1 & H2 & H3 & H4 & Hp).
    rewrite Hg, H1, H2, H3, H4, Hp. clear.
    destruct c; simpl; rewrite <- ?app_assoc; try done.
    split; last done.
    rewrite last_cons. by destruct (last (global_calls cs)).
Qed.

(** Property X1.  Whatever setters are called on a registry, in whatever
    order and however interleaved, the outcome is read off category by
    category: the global config is the argument of the last [set_global]
    (the old one when there was none), each list is the old list followed by
    the entries of the calls of its own setter in call order, and the
    private dictionaries are untouched. The chain returns the registry it
    started on. *)
Theorem setter_calls_by_category (h : heap) (self : loc)
  (r : QConfigMapping) (cs : list setter_call) :
  h !! self = Some r ->
  exists r',
    chain call self cs h = (<[self := r']> h, Return self) /\
    global_qconfig r' = default (global_qconfig r) (last (global_calls cs)) /\
    object_type_qconfigs r' = object_type_qconfigs r ++ object_type_calls cs /\
    module_name_regex_qconfigs r'
    = module_name_regex_qconfigs r ++ module_name_regex_calls cs /\
    module_name_qconfigs r' = module_name_qconfigs r ++ module_name_calls cs /\
    module_name_object_type_order_qconfigs r'
    = module_name_object_type_order_qconfigs r
      ++ module_name_object_type_order_calls cs /\
    private_dicts r' = private_dicts r.
Proof.
  intros E. eexists.
  split; first by apply (chain_live call call_change call_live).
  apply foldl_call_change.
Qed.

Lemma setter_calls_by_category_witness :
  sample_heap !! 2%positive = Some __init__ /\
  exists r',
    chain call 2%positive sample_calls_regrouped sample_heap
    = (<[2%positive := r']> sample_heap, Return 2%positive) /\
    global_qconfig r' = PObj 10 /\
    object_type_qconfigs r' = object_type_qconfigs sample_registry /\
    module_name_regex_qconfigs r'
    = module_name_regex_qconfigs sample_registry /\
    module_name_qconfigs r' = module_name_qconfigs sample_registry /\
    module_name_object_type_order_qconfigs r'
    = module_name_object_type_order_qconfigs sample_registry /\
    private_dicts r' = private_dicts __init__.
Proof.
  split; [reflexivity|].
  apply (setter_calls_by_category sample_heap 2%positive __init__
           sample_calls_regrouped).
  reflexivity.
Defined.

(** Property X2.  Calls of different setters do not interfere: two sequences
    of calls that agree on the last [set_global] argument and, for each of
    the four lists, on the calls of its setter in order, leave the registry
    in the same state. *)
Theorem setter_calls_regrouped (h : heap) (self : loc) (r : QConfigMapping)
  (cs1 cs2 : list setter_call) :
  h !! self = Some r ->
  last (global_calls cs1) = last (global_calls cs2) ->
  object_type_calls cs1 = object_type_calls cs2 ->
  module_name_regex_calls cs1 = module_name_regex_calls cs2 ->
  module_name_calls cs1 = module_name_calls cs2 ->
  module_name_object_type_order_calls cs1
  = module_name_object_type_order_calls cs2 ->
  chain call self cs1 h = chain call self cs2 h.
Proof.
  intros E Hg H1 H2 H3 H4.
  rewrite !(chain_live call call_change call_live _ _ _ _ E).
  do 2 f_equal.
  destruct (foldl_call_change cs1 r) as (Ag & A1 & A2 & A3 & A4 & Ap).
  destruct (foldl_call_change cs2 r) as (Bg & B1 & B2 & B3 & B4 & Bp).
  unfold private_dicts in Ap, Bp.
  apply QConfigMapping_eq; try congruence.
Qed.

Lemma setter_calls_regrouped_witness :
  sample_heap !! 2%positive = Some __init__ /\
  last (global_calls sample_calls)
  = last (global_calls sample_calls_regrouped) /\
  object_type_calls sample_calls
  = object_type_calls sample_calls_regrouped /\
  module_name_regex_calls sample_calls
  = module_name_regex_calls sample_calls_regrouped /\
  module_name_calls sample_calls
  = module_name_calls sample_calls_regrouped /\
  module_name_object_type_order_calls sample_calls
  = module_name_object_type_order_calls sample_calls_regrouped /\
  chain call 2%positive sample_calls sample_heap
  = chain call 2%positive sample_calls_regrouped sample_heap.
Proof.
  repeat (split; [reflexivity|]).
  apply (setter_calls_regrouped sample_heap 2%positive __init__
           sample_calls sample_calls_regrouped);
    reflexivity.
Defined.

(** ** What [from_dict] does to the store *)

Lemma confined_bind {A B} conf (P : A -> Prop) (Q : B -> Prop)
  (m : py A) (k : A -> py B) :
  confined conf P m -> (forall a, confined conf Q (k a)) ->
  confined conf Q (bind m k).
Proof.
  intros Hm Hk h r E. destruct (Hm h r E) as (r1 & o & Ho & Hpost).
  destruct o as [a|e|]; last done.
  - destruct (Hk a (<[conf := r1]> h) r1) as (r2 & o & Ho2 & Hpost2);
      first apply lookup_insert_eq.
    exists r2, o. split; last done.
    erewrite bind_Return by exact Ho. by rewrite Ho2, insert_live_twice.
  - exists r1, (Raise e). split; last done. by apply bind_Raise.
Qed.

Lemma confined_ret {A} conf (P : A -> Prop) (a : A) :
  P a -> confined conf P (ret a).
Proof.
  intros Ha h r E. exists r, (Return a). split; last done.
  unfold ret. by rewrite insert_id.
Qed.

Lemma confined_raise {A} conf (P : A -> Prop) e :
  confined conf P (raise e).
Proof.
  intros h r E. exists r, (Raise e). split; last done.
  unfold raise. by rewrite insert_id.
Qed.

Lemma confined_setter_step {A} conf (m : py A) f a :
  (forall (h : heap) r,
     h !! conf = Some r -> m h = (<[conf := f r]> h, Return a)) ->
  confined conf (fun _ : unit => True) (m ;; ret tt).
Proof.
  intros Hm h r E. exists (f r), (Return tt). split; last done.
  by erewrite bind_Return by by apply Hm.
Qed.

Section confined_loop.
Context {P : Type} (unpack : pyval -> py P) (k : P -> py unit) (conf : loc).
Hypothesis unpack_total : forall v (h : heap),
  (exists p, unpack v h = (h, Return p))
  \/ (exists e, unpack v h = (h, Raise e) /\ is_unpack_error e = true).
Hypothesis k_confined : forall p, confined conf (fun _ => True) (k p).

Lemma unpack_confined v : confined conf (fun _ => True) (unpack v).
Proof.
  intros h r E. exists r.
  destruct (unpack_total v h) as [[p Hp]|(e & He & _)].
  - exists (Return p). by rewrite Hp, insert_id.
  - exists (Raise e). by rewrite He, insert_id.
Qed.

Lemma for_each_confined items :
  confined conf (fun _ => True)
    (for_each items (fun item => bind (unpack item) k)).
Proof.
  induction items as [|v items IH]; simpl.
  - by apply confined_ret.
  - eapply confined_bind; last by intros _.
    eapply confined_bind; [apply unpack_confined|apply k_confined].
Qed.

Lemma for_in_confined v :
  confined conf (fun _ => True)
    (for_in v (fun item => bind (unpack item) k)).
Proof.
  unfold for_in. destruct (iter_items v).
  - apply for_each_confined.
  - apply confined_raise.
Qed.
End confined_loop.

Lemma confined_let2 {A} conf (f : pyval -> pyval -> py A)
  (p : pyval * pyval) :
  (forall a b, confined conf (fun _ => True) (f a b)) ->
  confined conf (fun _ => True) (let '(a, b) := p in f a b).
Proof. intros Hf. by destruct p. Qed.

Lemma confined_let4 {A} conf (f : pyval -> pyval -> pyval -> pyval -> py A)
  (p : pyval * pyval * pyval * pyval) :
  (forall a b c d, confined conf (fun _ => True) (f a b c d)) ->
  confined conf (fun _ => True) (let '(a, b, c, d) := p in f a b c d).
Proof. intros Hf. by destruct p as [[[? ?] ?] ?]. Qed.

(** Property X3.  [from_dict], whatever dictionary it is given and whether
    it returns or raises, creates exactly one object, at a reference that
    was not in use, and changes no object that existed before; it returns
    that new reference or raises, and is never stuck. *)
Theorem from_dict_frame (d : gmap string pyval) (h : heap) :
  exists r' o,
    from_dict d h = (<[fresh (dom h) := r']> h, o) /\
    h !! fresh (dom h) = None /\
    (forall l r, h !! l = Some r -> <[fresh (dom h) := r']> h !! l = Some r) /\
    (o = Return (fresh (dom h)) \/ exists e, o = Raise e).
Proof.
  assert (h !! fresh (dom h) = None) as Hfresh
    by apply not_elem_of_dom, is_fresh.
  rewrite from_dict_unfold.
  match goal with
  | |- exists r' o, ?m ?h0 = _ /\ _ =>
      assert (confined (fresh (dom h)) (fun c => c = fresh (dom h)) m) as Hc
  end.
  { eapply confined_bind with (P := fun _ => True).
    { destruct (d !! GLOBAL_DICT_KEY); last by apply confined_ret.
      eapply confined_setter_step. intros. by apply set_global_live. }
    intros _. eapply confined_bind with (P := fun _ => True).
    { apply for_in_confined; [apply unpack2_returns_or_raises|].
      intros p. apply confined_let2. intros a b.
      eapply confined_setter_step. intros. by apply set_object_type_live. }
    intros _. eapply confined_bind with (P := fun _ => True).
    { apply for_in_confined; [apply unpack2_returns_or_raises|].
      intros p. apply confined_let2. intros a b.
      eapply confined_setter_step. intros. by apply set_module_name_regex_live. }
    intros _. eapply confined_bind with (P := fun _ => True).
    { apply for_in_confined; [apply unpack2_returns_or_raises|].
      intros p. apply confined_let2. intros a b.
      eapply confined_setter_step. intros. by apply set_module_name_live. }
    intros _. eapply confined_bind with (P := fun _ => True).
    { apply for_in_confined; [apply unpack4_returns_or_raises|].
      intros p. apply confined_let4. intros a b c e.
      eapply confined_setter_step. intros.
      by apply set_module_name_object_type_order_live. }
    intros _. by apply confined_ret. }
  destruct (Hc (<[fresh (dom h) := __init__]> h) __init__)
    as (r' & o & Ho & Hpost); first apply lookup_insert_eq.
  exists r', o. rewrite Ho, insert_live_twice.
  split; first done. split; first done.
  split.
  { intros l r Hl. rewrite lookup_insert_ne; first done. congruence. }
  destruct o as [c|e|]; [left; by subst|right; by eexists|done].
Qed.

(** ** The dictionaries [from_dict] accepts *)

Lemma unpack_error_not_Return {A} n l (h h' : heap) (a : A) :
  unpack_error n l h <> (h', Return a).
Proof. unfold unpack_error. by destruct (_ <? _)%nat. Qed.

Lemma unpack2_Return_items v (h : heap) p :
  unpack2 v h = (h, Return p) -> iter_items v = Some [p.1; p.2].
Proof.
  unfold unpack2. destruct (iter_items v) as [l|]; last done.
  destruct l as [|a [|b [|c l]]]; intros Hu;
    try by destruct (unpack_error_not_Return _ _ _ _ _ Hu).
  unfold ret in Hu. by simplify_eq.
Qed.

Lemma unpack4_Return_items v (h : heap) p :
  unpack4 v h = (h, Return p) ->
  iter_items v = Some [p.1.1.1; p.1.1.2; p.1.2; p.2].
Proof.
  unfold unpack4. destruct (iter_items v) as [l|]; last done.
  destruct l as [|a [|b [|c [|e [|x l]]]]]; intros Hu;
    try by destruct (unpack_error_not_Return _ _ _ _ _ Hu).
  unfold ret in Hu. by simplify_eq.
Qed.

Lemma unpack2_ok v :
  unpacks 2 v = true -> exists p, forall h : heap, unpack2 v h = (h, Return p).
Proof.
  unfold unpacks, unpack2. destruct (iter_items v) as [l|]; last done.
  destruct l as [|a [|b [|c l]]]; try done. intros _. by exists (a, b).
Qed.

Lemma unpack4_ok v :
  unpacks 4 v = true -> exists p, forall h : heap, unpack4 v h = (h, Return p).
Proof.
  unfold unpacks, unpack4. destruct (iter_items v) as [l|]; last done.
  destruct l as [|a [|b [|c [|e [|x l]]]]]; try done.
  intros _. by exists (a, b, c, e).
Qed.

Lemma unpack2_fail v (h : heap) p :
  unpacks 2 v = false -> unpack2 v h <> (h, Return p).
Proof.
  intros Hn Hu. apply unpack2_Return_items in Hu.
  unfold unpacks in Hn. by rewrite Hu in Hn.
Qed.

Lemma unpack4_fail v (h : heap) p :
  unpacks 4 v = false -> unpack4 v h <> (h, Return p).
Proof.
  intros Hn Hu. apply unpack4_Return_items in Hu.
  unfold unpacks in Hn. by rewrite Hu in Hn.
Qed.

Lemma forallb_false_elem {A} (f : A -> bool) l :
  forallb f l = false -> exists x, x ∈ l /\ f x = false.
Proof.
  induction l as [|x l IH]; simpl; first done.
  destruct (f x) eqn:Hx; simpl.
  - intros (y & Hy & Hf)%IH. exists y. split; [by right|done].
  - intros _. exists x. split; [by left|done].
Qed.

Section phase_shape.
Context {P : Type} (unpack : pyval -> py P) (k : P -> py unit)
        (change : P -> QConfigMapping -> QConfigMapping) (conf : loc)
        (d : gmap string pyval) (K : string) (n : nat).
Hypothesis unpack_total : forall v (h : heap),
  (exists p, unpack v h = (h, Return p))
  \/ (exists e, unpack v h = (h, Raise e) /\ is_unpack_error e = true).
Hypothesis k_change : forall p (h : heap) r,
  h !! conf = Some r -> k p h = (<[conf := change p r]> h, Return tt).
Hypothesis K_list_key : K ∈ list_keys.*1.
Hypothesis unpack_ok : forall v,
  unpacks n v = true -> exists p, forall h : heap, unpack v h = (h, Return p).
Hypothesis unpack_fail : forall v (h : heap) p,
  unpacks n v = false -> unpack v h <> (h, Return p).

Lemma phase_well_formed (h : heap) r :
  well_formed_at d (K, n) = true ->
  h !! conf = Some r ->
  exists ps,
    Forall2 (fun v p => forall h : heap, unpack v h = (h, Return p))
      (items_of d K) ps /\
    for_in (dict_get d K (PList [])) (fun item => bind (unpack item) k) h
    = (<[conf := foldl (fun r p => change p r) r ps]> h, Return tt).
Proof.
  unfold well_formed_at, items_of, for_in. simpl.
  destruct (iter_items (dict_get d K (PList []))) as [items|]; last done.
  simpl. intros Hall E.
  assert (exists ps,
            Forall2 (fun v p => forall h : heap, unpack v h = (h, Return p))
              items ps) as [ps Hps].
  { clear E. induction items as [|v items IH]; first by exists [].
    simpl in Hall. apply andb_prop in Hall as [Hv Hall].
    destruct (IH Hall) as [ps Hps]. destruct (unpack_ok v Hv) as [p Hp].
    exists (p :: ps). by constructor. }
  exists ps. split; first done. by apply loop_good.
Qed.

Lemma phase_ill_formed :
  well_formed_at d (K, n) = false ->
  always_raises (fun e => is_unpack_error e = true \/ ~ iterable_valued d)
    conf
    (for_in (dict_get d K (PList [])) (fun item => bind (unpack item) k)).
Proof.
  unfold well_formed_at, for_in. simpl. intros Hwf h r E.
  destruct (iter_items (dict_get d K (PList []))) as [items|] eqn:Hi.
  - apply forallb_false_elem in Hwf as (v & Hv & Hf).
    destruct (loop_bad unpack k change conf unpack_total k_change items v
                h r Hv) as (h' & e & He & HQ); [|done|].
    { intros ? ?. by apply unpack_fail. }
    exists h', e. auto.
  - exists h, TypeError_not_iterable. split; first done. right.
    intros Hd. unfold dict_get in Hi.
    destruct (d !! K) as [v|] eqn:EK; last done. simpl in Hi.
    destruct (Hd K v K_list_key EK) as [l Hl]. congruence.
Qed.
End phase_shape.

Lemma global_step_live conf (d : gmap string pyval) (h : heap) r :
  h !! conf = Some r ->
  (match d !! GLOBAL_DICT_KEY with
   | Some g => set_global conf g ;; ret tt
   | None => ret tt
   end) h
  = (<[conf := match d !! GLOBAL_DICT_KEY with
               | Some g => assign_global_qconfig g r
               | None => r
               end]> h, Return tt).
Proof.
  intros E. destruct (d !! GLOBAL_DICT_KEY) as [g|].
  - by erewrite bind_Return by by apply set_global_live.
  - unfold ret. by rewrite insert_id.
Qed.

Lemma foldl_change_fmap {P T} (entry : P -> T)
  (app : T -> QConfigMapping -> QConfigMapping) r ps :
  foldl (fun r p => app (entry p) r) r ps
  = foldl (fun r e => app e r) r (entry <$> ps).
Proof. by rewrite foldl_fmap. Qed.

(** The registry [from_dict] builds from a dictionary it accepts. *)
Lemma from_dict_accepts (d : gmap string pyval) (h : heap) :
  well_formed d = true ->
  exists r',
    from_dict d h = (<[fresh (dom h) := r']> h, Return (fresh (dom h))) /\
    global_qconfig r' = default PNone (d !! GLOBAL_DICT_KEY) /\
    Forall2 (fun v e => iter_items v
                        = Some [ObjectTypeEntry.object_type e;
                                ObjectTypeEntry.qconfig e])
      (items_of d OBJECT_TYPE_DICT_KEY) (object_type_qconfigs r') /\
    Forall2 (fun v e => iter_items v
                        = Some [ModuleNameRegexEntry.module_name_regex e;
                                ModuleNameRegexEntry.qconfig e])
      (items_of d MODULE_NAME_REGEX_DICT_KEY)
      (module_name_regex_qconfigs r') /\
    Forall2 (fun v e => iter_items v
                        = Some [ModuleNameEntry.module_name e;
                                ModuleNameEntry.qconfig e])
      (items_of d MODULE_NAME_DICT_KEY) (module_name_qconfigs r') /\
    Forall2 (fun v e => iter_items v
                        = Some [ModuleNameObjectTypeOrderEntry.module_name e;
                                ModuleNameObjectTypeOrderEntry.object_type e;
                                ModuleNameObjectTypeOrderEntry.index e;
                                ModuleNameObjectTypeOrderEntry.qconfig e])
      (items_of d MODULE_NAME_OBJECT_TYPE_ORDER_DICT_KEY)
      (module_name_object_type_order_qconfigs r') /\
    private_dicts r' = ([], [], []).
Proof.
  intros Hwf. unfold well_formed, list_keys in Hwf. simpl in Hwf.
  apply andb_prop in Hwf as [H1 Hwf]. apply andb_prop in Hwf as [H2 Hwf].
  apply andb_prop in Hwf as [H3 Hwf]. apply andb_prop in Hwf as [H4 _].
  rewrite from_dict_unfold. set (conf := fresh (dom h)).
  pose proof (global_step_live conf d (<[conf := __init__]> h) __init__
                (lookup_insert_eq _ _ _)) as E0.
  rewrite insert_live_twice in E0.
  set (r0 := match d !! GLOBAL_DICT_KEY with
             | Some g => assign_global_qconfig g __init__
             | None => __init__
             end) in E0.
  destruct (phase_well_formed unpack2
              (fun p : pyval * pyval =>
                 let '(a, b) := p in set_object_type conf a b ;; ret tt)
              (fun p => append_object_type_qconfigs
                          (ObjectTypeEntry.mk p.1 p.2))
              conf d OBJECT_TYPE_DICT_KEY 2
              (object_type_body_change conf) unpack2_ok
              (<[conf := r0]> h) r0 H1 (lookup_insert_eq _ _ _))
    as (ps1 & F1 & E1).
  rewrite insert_live_twice in E1.
  rewrite (foldl_change_fmap (fun p => ObjectTypeEntry.mk p.1 p.2)
             append_object_type_qconfigs),
    foldl_append_object_type_qconfigs in E1.
  match type of E1 with _ = (<[_ := ?r]> _, _) => set (r1 := r) in E1 end.
  destruct (phase_well_formed unpack2
              (fun p : pyval * pyval =>
                 let '(a, b) := p in set_module_name_regex conf a b ;; ret tt)
              (fun p => append_module_name_regex_qconfigs
                          (ModuleNameRegexEntry.mk p.1 p.2))
              conf d MODULE_NAME_REGEX_DICT_KEY 2
              (module_name_regex_body_change conf) unpack2_ok
              (<[conf := r1]> h) r1 H2 (lookup_insert_eq _ _ _))
    as (ps2 & F2 & E2).
  rewrite insert_live_twice in E2.
  rewrite (foldl_change_fmap (fun p => ModuleNameRegexEntry.mk p.1 p.2)
             append_module_name_regex_qconfigs),
    foldl_append_module_name_regex_qconfigs in E2.
  match type of E2 with _ = (<[_ := ?r]> _, _) => set (r2 := r) in E2 end.
  destruct (phase_well_formed unpack2
              (fun p : pyval * pyval =>
                 let '(a, b) := p in set_module_name conf a b ;; ret tt)
              (fun p => append_module_name_qconfigs
                          (ModuleNameEntry.mk p.1 p.2))
              conf d MODULE_NAME_DICT_KEY 2
              (module_name_body_change conf) unpack2_ok
              (<[conf := r2]> h) r2 H3 (lookup_insert_eq _ _ _))
    as (ps3 & F3 & E3).
  rewrite insert_live_twice in E3.
  rewrite (foldl_change_fmap (fun p => ModuleNameEntry.mk p.1 p.2)
             append_module_name_qconfigs),
    foldl_append_module_name_qconfigs in E3.
  match type of E3 with _ = (<[_ := ?r]> _, _) => set (r3 := r) in E3 end.
  destruct (phase_well_formed unpack4
              (fun p : pyval * pyval * pyval * pyval =>
                 let '(a, b, c, e) := p in
                 set_module_name_object_type_order conf a b c e ;; ret tt)
              (fun p => append_module_name_object_type_order_qconfigs
                          (ModuleNameObjectTypeOrderEntry.mk
                             p.1.1.1 p.1.1.2 p.1.2 p.2))
              conf d MODULE_NAME_OBJECT_TYPE_ORDER_DICT_KEY 4
              (module_name_object_type_order_body_change conf) unpack4_ok
              (<[conf := r3]> h) r3 H4 (lookup_insert_eq _ _ _))
    as (ps4 & F4 & E4).
  rewrite insert_live_twice in E4.
  rewrite (foldl_change_fmap
             (fun p => ModuleNameObjectTypeOrderEntry.mk
                         p.1.1.1 p.1.1.2 p.1.2 p.2)
             append_module_name_object_type_order_qconfigs),
    foldl_append_module_name_object_type_order_qconfigs in E4.
  match type of E4 with _ = (<[_ := ?r]> _, _) => set (r4 := r) in E4 end.
  exists r4. split.
  { erewrite bind_Return by exact E0. erewrite bind_Return by exact E1.
    erewrite bind_Return by exact E2. erewrite bind_Return by exact E3.
    by erewrite bind_Return by exact E4. }
  assert (object_type_qconfigs r0 = [] /\
          module_name_regex_qconfigs r0 = [] /\
          module_name_qconfigs r0 = [] /\
          module_name_object_type_order_qconfigs r0 = [] /\
          private_dicts r0 = ([], [], []) /\
          global_qconfig r0 = default PNone (d !! GLOBAL_DICT_KEY))
    as (L1 & L2 & L3 & L4 & Lp & Lg).
  { unfold r0. by destruct (d !! GLOBAL_DICT_KEY). }
  unfold private_dicts in *. subst r4 r3 r2 r1. simpl.
  rewrite L1, L2, L3, L4. simpl.
  split; first done.
  split.
  { apply Forall2_fmap_r. eapply Forall2_impl; first exact F1.
    intros v p Hp. by apply (unpack2_Return_items v h). }
  split.
  { apply Forall2_fmap_r. eapply Forall2_impl; first exact F2.
    intros v p Hp. by apply (unpack2_Return_items v h). }
  split.
  { apply Forall2_fmap_r. eapply Forall2_impl; first exact F3.
    intros v p Hp. by apply (unpack2_Return_items v h). }
  split; last done.
  apply Forall2_fmap_r. eapply Forall2_impl; first exact F4.
  intros v p Hp. by apply (unpack4_Return_items v h).
Qed.

(** The step of [from_dict] that meets a value it cannot iterate over, or an
    item it cannot unpack, raises. *)
Ltac step_ill_formed n body_change unpack_returns unpack_fails :=
  eapply always_raises_first;
  eapply (phase_ill_formed _ _ _ _ _ _ n);
  [ apply unpack_returns
  | apply body_change
  | by (unfold list_keys; simpl; set_solver)
  | apply unpack_fails
  | eassumption ].

Lemma from_dict_rejects (d : gmap string pyval) (h : heap) :
  well_formed d = false ->
  exists h' e,
    from_dict d h = (h', Raise e) /\
    (is_unpack_error e = true \/ ~ iterable_valued d).
Proof.
  intros Hwf. unfold well_formed, list_keys in Hwf. simpl in Hwf.
  rewrite from_dict_unfold.
  eapply always_raises_apply; last apply lookup_insert_eq.
  eapply always_raises_then; first apply global_step_total.
  destruct (well_formed_at d (OBJECT_TYPE_DICT_KEY, 2%nat)) eqn:H1.
  2: { step_ill_formed 2%nat object_type_body_change
         unpack2_returns_or_raises unpack2_fail. }
  step_completes object_type_body_change.
  destruct (well_formed_at d (MODULE_NAME_REGEX_DICT_KEY, 2%nat)) eqn:H2.
  2: { step_ill_formed 2%nat module_name_regex_body_change
         unpack2_returns_or_raises unpack2_fail. }
  step_completes module_name_regex_body_change.
  destruct (well_formed_at d (MODULE_NAME_DICT_KEY, 2%nat)) eqn:H3.
  2: { step_ill_formed 2%nat module_name_body_change
         unpack2_returns_or_raises unpack2_fail. }
  step_completes module_name_body_change.
  destruct (well_formed_at d (MODULE_NAME_OBJECT_TYPE_ORDER_DICT_KEY, 4%nat))
    eqn:H4; first done.
  step_ill_formed 4%nat module_name_object_type_order_body_change
    unpack4_returns_or_raises unpack4_fail.
Qed.



(** The loose sample dictionary, read: the tuple stands for a list, the
    inner lists and the two-character string for pairs, and the missing
    keys give [None] and an empty list. *)
Example from_dict_sample_dict_loose :
  from_dict sample_dict_loose ∅
  = ({[ 1%positive :=
          {| global_qconfig := PNone;
             object_type_qconfigs :=
               [ ObjectTypeEntry.mk (PObj 20) (PObj 1);
                 ObjectTypeEntry.mk (PStr "a") (PStr "b") ];
             module_name_regex_qconfigs := [];
             module_name_qconfigs :=
               [ ModuleNameEntry.mk (PStr "module1") (PObj 1) ];
             module_name_object_type_order_qconfigs :=
               [ ModuleNameObjectTypeOrderEntry.mk (PStr "foo.bar") (PObj 22)
                   (PInt 0) (PObj 3) ];
             _object_type_qconfig_dict := [];
             _module_name_regex_qconfig_dict := [];
             _module_name_qconfig_dict := [] |} ]},
     Return 1%positive).
Proof. reflexivity. Qed.


(** ** More on the dictionary form *)

(** Property X7.  Reading back the dictionary of a registry and converting
    the result again gives the same dictionary: [to_dict] output is a fixed
    point of [from_dict] followed by [to_dict]. *)
Theorem to_dict_from_dict_to_dict (h : heap) (self : loc)
  (r : QConfigMapping) :
  h !! self = Some r ->
  exists d (h' : heap),
    to_dict self h = (h, Return d) /\
    (d0 <- to_dict self ;; conf <- from_dict d0 ;; to_dict conf) h
    = (h', Return d).
Proof.
  intros E. eexists _, _. split; first by apply to_dict_live.
  erewrite bind_Return by by apply to_dict_live.
  erewrite bind_Return by apply from_dict_dict_display.
  by erewrite to_dict_live by apply lookup_insert_eq.
Qed.

Lemma to_dict_from_dict_to_dict_witness :
  sample_heap !! 1%positive = Some sample_registry /\
  exists d (h' : heap),
    to_dict 1%positive sample_heap = (sample_heap, Return d) /\
    (d0 <- to_dict 1%positive ;; conf <- from_dict d0 ;; to_dict conf)
      sample_heap
    = (h', Return d).
Proof.
  split; [reflexivity|].
  apply (to_dict_from_dict_to_dict sample_heap 1%positive sample_registry).
  reflexivity.
Defined.

Lemma fmap_injective {A B} (f : A -> B) :
  (forall x y, f x = f y -> x = y) ->
  forall l k : list A, f <$> l = f <$> k -> l = k.
Proof.
  intros Hf l. induction l as [|x l IH]; intros [|y k] Hlk; try done.
  simpl in Hlk. injection Hlk as Hxy Hlk. f_equal; auto.
Qed.

Lemma to_tuple_list_object_type_inj (l k : list QConfigObjectTypeEntry) :
  to_tuple_list l = to_tuple_list k -> l = k.
Proof.
  intros [= Hlk]. revert Hlk. apply fmap_injective.
  by intros [] [] [= -> ->].
Qed.

Lemma to_tuple_list_module_name_regex_inj
  (l k : list QConfigModuleNameRegexEntry) :
  to_tuple_list l = to_tuple_list k -> l = k.
Proof.
  intros [= Hlk]. revert Hlk. apply fmap_injective.
  by intros [] [] [= -> ->].
Qed.

Lemma to_tuple_list_module_name_inj (l k : list QConfigModuleNameEntry) :
  to_tuple_list l = to_tuple_list k -> l = k.
Proof.
  intros [= Hlk]. revert Hlk. apply fmap_injective.
  by intros [] [] [= -> ->].
Qed.

Lemma to_tuple_list_module_name_object_type_order_inj
  (l k : list QConfigModuleNameObjectTypeOrderEntry) :
  to_tuple_list l = to_tuple_list k -> l = k.
Proof.
  intros [= Hlk]. revert Hlk. apply fmap_injective.
  by intros [] [] [= -> -> -> ->].
Qed.

(** Property X8.  The dictionary form loses nothing: two registries, in
    whatever stores, whose [to_dict] results are equal have the same global
    config and the same four lists. *)
Theorem to_dict_injective (h1 h2 : heap) (self1 self2 : loc)
  (r1 r2 : QConfigMapping) (d : gmap string pyval) :
  h1 !! self1 = Some r1 ->
  h2 !! self2 = Some r2 ->
  to_dict self1 h1 = (h1, Return d) ->
  to_dict self2 h2 = (h2, Return d) ->
  global_qconfig r1 = global_qconfig r2 /\
  object_type_qconfigs r1 = object_type_qconfigs r2 /\
  module_name_regex_qconfigs r1 = module_name_regex_qconfigs r2 /\
  module_name_qconfigs r1 = module_name_qconfigs r2 /\
  module_name_object_type_order_qconfigs r1
  = module_name_object_type_order_qconfigs r2.
Proof.
  intros E1 E2 D1 D2.
  rewrite (to_dict_live _ _ _ E1) in D1. rewrite (to_dict_live _ _ _ E2) in D2.
  injection D1 as D1. injection D2 as D2.
  match type of D1 with
  | dict_display ?g ?a ?b ?c ?e = _ =>
      destruct (dict_display_lookup g a b c e) as (Ag & A1 & A2 & A3 & A4)
  end.
  match type of D2 with
  | dict_display ?g ?a ?b ?c ?e = _ =>
      destruct (dict_display_lookup g a b c e) as (Bg & B1 & B2 & B3 & B4)
  end.
  rewrite D1 in Ag, A1, A2, A3, A4. rewrite D2 in Bg, B1, B2, B3, B4.
  split; first congruence.
  split; first (apply to_tuple_list_object_type_inj; congruence).
  split; first (apply to_tuple_list_module_name_regex_inj; congruence).
  split; first (apply to_tuple_list_module_name_inj; congruence).
  apply to_tuple_list_module_name_object_type_order_inj; congruence.
Qed.

Lemma to_dict_injective_witness :
  sample_heap !! 1%positive = Some sample_registry /\
  ({[ 5%positive := sample_registry ]} : heap) !! 5%positive
  = Some sample_registry /\
  to_dict 1%positive sample_heap
  = (sample_heap,
     Return (dict_display (PObj 10)
               (to_tuple_list (object_type_qconfigs sample_registry))
               (to_tuple_list (module_name_regex_qconfigs sample_registry))
               (to_tuple_list (module_name_qconfigs sample_registry))
               (to_tuple_list
                  (module_name_object_type_order_qconfigs sample_registry))))
  /\
  to_dict 5%positive {[ 5%positive := sample_registry ]}
  = ({[ 5%positive := sample_registry ]},
     Return (dict_display (PObj 10)
               (to_tuple_list (object_type_qconfigs sample_registry))
               (to_tuple_list (module_name_regex_qconfigs sample_registry))
               (to_tuple_list (module_name_qconfigs sample_registry))
               (to_tuple_list
                  (module_name_object_type_order_qconfigs sample_registry))))
  /\
  global_qconfig sample_registry = global_qconfig sample_registry /\
  object_type_qconfigs sample_registry
  = object_type_qconfigs sample_registry /\
  module_name_regex_qconfigs sample_registry
  = module_name_regex_qconfigs sample_registry /\
  module_name_qconfigs sample_registry
  = module_name_qconfigs sample_registry /\
  module_name_object_type_order_qconfigs sample_registry
  = module_name_object_type_order_qconfigs sample_registry.
Proof.
  repeat (split; [reflexivity|]).
  apply (to_dict_injective sample_heap {[ 5%positive := sample_registry ]}
           1%positive 5%positive sample_registry sample_registry
           (dict_display (PObj 10)
              (to_tuple_list (object_type_qconfigs sample_registry))
              (to_tuple_list (module_name_regex_qconfigs sample_registry))
              (to_tuple_list (module_name_qconfigs sample_registry))
              (to_tuple_list
                 (module_name_object_type_order_qconfigs sample_registry))));
    reflexivity.
Defined.

(** Property X9.  An entry that spells out the default reads like a missing
    one: [None] at [""] and an empty list at a list key give the same result
    as a dictionary without that key. *)
Theorem from_dict_explicit_defaults (d : gmap string pyval) (h : heap) :
  from_dict (<[GLOBAL_DICT_KEY := PNone]> d) h
  = from_dict (delete GLOBAL_DICT_KEY d) h /\
  from_dict (<[OBJECT_TYPE_DICT_KEY := PList []]> d) h
  = from_dict (delete OBJECT_TYPE_DICT_KEY d) h /\
  from_dict (<[MODULE_NAME_REGEX_DICT_KEY := PList []]> d) h
  = from_dict (delete MODULE_NAME_REGEX_DICT_KEY d) h /\
  from_dict (<[MODULE_NAME_DICT_KEY := PList []]> d) h
  = from_dict (delete MODULE_NAME_DICT_KEY d) h /\
  from_dict (<[MODULE_NAME_OBJECT_TYPE_ORDER_DICT_KEY := PList []]> d) h
  = from_dict (delete MODULE_NAME_OBJECT_TYPE_ORDER_DICT_KEY d) h.
Proof.
  split.
  { rewrite !from_dict_unfold. unfold dict_get.
    rewrite lookup_insert_eq, lookup_delete_eq.
    rewrite !lookup_insert_ne, !lookup_delete_ne by done.
    erewrite bind_Return; last first.
    { erewrite bind_Return; first done.
      apply set_global_live, lookup_insert_eq. }
    by rewrite insert_live_twice. }
  repeat split; unfold from_dict, dict_get;
    rewrite lookup_insert_eq, lookup_delete_eq;
    by rewrite !lookup_insert_ne, !lookup_delete_ne by done.
Qed.

(** ** Which exception [from_dict] raises *)

Lemma unpack2_item_error v (h : heap) :
  match item_error 2 v with
  | Some e => unpack2 v h = (h, Raise e)
  | None => exists p, unpack2 v h = (h, Return p)
  end.
Proof.
  unfold item_error, unpack2. destruct (iter_items v) as [l|]; last done.
  destruct l as [|a [|b [|c l]]]; try done. by exists (a, b).
Qed.

Lemma unpack4_item_error v (h : heap) :
  match item_error 4 v with
  | Some e => unpack4 v h = (h, Raise e)
  | None => exists p, unpack4 v h = (h, Return p)
  end.
Proof.
  unfold item_error, unpack4. destruct (iter_items v) as [l|]; last done.
  destruct l as [|a [|b [|c [|e [|x l]]]]]; try done. by exists (a, b, c, e).
Qed.

Section loop_error.
Context {P : Type} (unpack : pyval -> py P) (k : P -> py unit)
        (change : P -> QConfigMapping -> QConfigMapping) (conf : loc)
        (n : nat).
Hypothesis unpack_item_error : forall v (h : heap),
  match item_error n v with
  | Some e => unpack v h = (h, Raise e)
  | None => exists p, unpack v h = (h, Return p)
  end.
Hypothesis k_change : forall p (h : heap) r,
  h !! conf = Some r -> k p h = (<[conf := change p r]> h, Return tt).

Lemma for_each_outcome items : forall (h : heap) r,
  h !! conf = Some r ->
  exists r',
    for_each items (fun item => bind (unpack item) k) h
    = (<[conf := r']> h,
       match head (omap (item_error n) items) with
       | Some e => Raise e
       | None => Return tt
       end).
Proof.
  induction items as [|v items IH]; intros h r E; simpl.
  - exists r. unfold ret. by rewrite insert_id.
  - pose proof (unpack_item_error v h) as Hv.
    destruct (item_error n v) as [e|]; simpl.
    + exists r. rewrite insert_id by done.
      erewrite bind_Raise; first done. by erewrite bind_Raise.
    + destruct Hv as [p Hp].
      destruct (IH (<[conf := change p r]> h) (change p r)) as [r' Hr'];
        first apply lookup_insert_eq.
      exists r'. erewrite bind_Return; last first.
      { erewrite bind_Return by exact Hp. by apply k_change. }
      by rewrite Hr', insert_live_twice.
Qed.

Lemma for_in_outcome (d : gmap string pyval) K (h : heap) r :
  h !! conf = Some r ->
  exists r',
    for_in (dict_get d K (PList [])) (fun item => bind (unpack item) k) h
    = (<[conf := r']> h,
       match value_error d (K, n) with
       | Some e => Raise e
       | None => Return tt
       end).
Proof.
  intros E. unfold for_in, value_error. simpl.
  destruct (iter_items (dict_get d K (PList []))) as [items|].
  - by apply (for_each_outcome items h r).
  - exists r. unfold raise. by rewrite insert_id.
Qed.
End loop_error.


(** A list key that is present with value [None] is not treated like a
    missing key: the default of [get] applies to missing keys only, and the
    loop raises, whatever a later key holds. *)
Example from_dict_None_list_value :
  from_dict
    (<[MODULE_NAME_DICT_KEY := PList [PTuple [PStr "module1"]]]>
       (<[OBJECT_TYPE_DICT_KEY := PNone]> ∅)) ∅
  = ({[ 1%positive := __init__ ]}, Raise TypeError_not_iterable).
Proof. reflexivity. Qed.
